(** * combine_crimes_with_naptan_data.py: crimes within a buffer of NaPTAN stops

    A shallow embedding of the script.  The script's own control flow
    (directory loops, early returns, CRS checks, [raise] statements, the
    order of the pipeline stages in [main]) is transcribed function by
    function.  What the script calls in pandas, geopandas, pyproj and the
    operating system is either

    - a field of [Library] or [Env], when the script only passes values
      through it (reprojection, buffering, the containment predicate, float
      arithmetic, directory listings, CSV parsing), or
    - a small executable model, when the script's result depends on how the
      call treats rows and columns ([notna] masks, [drop], [concat],
      [sjoin], [groupby(...).sum()], column selection). *)

From Stdlib Require Import String Ascii List ZArith Lia Bool Permutation.
Import ListNotations.
Local Open Scope string_scope.
Local Open Scope list_scope.

(** ** Python strings and paths *)

(** [sub in s]. *)
Fixpoint contains (sub s : string) : bool :=
  prefix sub s ||
  match s with
  | EmptyString => false
  | String _ s' => contains sub s'
  end.

(** [s.replace(old, new)] for a non-empty [old]: occurrences are replaced
    from left to right and do not overlap; [skip] counts the characters of
    a replaced occurrence still to be passed over. *)
Fixpoint replace_from (old new : string) (skip : nat) (s : string) : string :=
  match s with
  | EmptyString => EmptyString
  | String c s' =>
      match skip with
      | S k => replace_from old new k s'
      | O =>
          if prefix old s
          then new ++ replace_from old new (String.length old - 1) s'
          else String c (replace_from old new 0 s')
      end
  end.

Definition replace (old new s : string) : string := replace_from old new 0 s.

(** [s[:n]]. *)
Fixpoint take_chars (n : nat) (s : string) : string :=
  match n, s with
  | S k, String c s' => String c (take_chars k s')
  | _, _ => EmptyString
  end.

(** A [pathlib.Path], by its components; [p / name] appends one. *)
Definition Path := list string.

Definition path_div (p : Path) (name : string) : Path := p ++ [name].

(** ** Constants of the script *)

Definition CRIME_DATA_PATH : Path := ["E:"; "Data"; "Crime Data"].
Definition NAPTAN_DIR : Path := ["E:"; "Data"; "NaPTAN"].
Definition GEOMETRY_COL : string := "geometry".
Definition NAPTAN_BUFFER_M : Z := 100.
Definition GROUPBY_COLS : list string := ["NaptanCode"; "Crime type"].

(** The column list of the final projection in [main]. *)
Definition RETAINED_COLS : list string :=
  ["crime_count"; "Crime ID"; "Month"; "Reported by"; "Falls within";
   "Location"; "LSOA code"; "LSOA name"; "Last outcome category";
   "ATCOCode"; "CommonName"; "Landmark"; "Street"; "NptgLocalityCode";
   "LocalityName"; "Status"; "CreationDateTime"; "ModificationDateTime"].

(** ** Exceptions, outcomes and the output log *)

Inductive Exn : Type :=
| TypeError (msg : string)
| KeyError (key : string)
| ValueError (msg : string)
| AttributeError (msg : string)
| FileNotFoundError (path : Path)
| OtherError (msg : string).

(** The operand of a [raise] statement: an exception instance, or (as in
    [check_crs] and [apply_point_buffer]) a formatted string. *)
Inductive RaiseOperand : Type :=
| OpExc (e : Exn)
| OpStr (s : string).

(** What Python 3 propagates for [raise operand]: an operand that is not an
    exception is replaced by a [TypeError] with a fixed message, and the
    operand itself is discarded. *)
Definition propagated (o : RaiseOperand) : Exn :=
  match o with
  | OpExc e => e
  | OpStr _ => TypeError "exceptions must derive from BaseException"
  end.

Inductive Outcome (A : Type) : Type :=
| Returns (a : A)
| Raises (e : Exn).

Arguments Returns {A} a.
Arguments Raises {A} e.

(** A piece of a printed line: literal text, [{n:,}], [{z}], or the clock
    reading of [ct()]. *)
Inductive Piece : Type :=
| PStr (s : string)
| PCount (n : nat)
| PInt (z : Z)
| PClock.

Inductive Event : Type :=
| EvPrint (line : list Piece)
| EvListdir (p : Path)
| EvReadCsv (p : Path)
| EvToFile (p : Path)
| EvPbarNew (total : nat)
| EvPbarDescription (s : string)
| EvPbarUpdate (n : nat).

(** Computations of the script: the events so far and how the call ended. *)
Definition M (A : Type) : Type := (list Event * Outcome A)%type.

Definition ret {A} (a : A) : M A := ([], Returns a).

Definition bind {A B} (m : M A) (f : A -> M B) : M B :=
  match m with
  | (l, Returns a) => let (l', r) := f a in (l ++ l', r)
  | (l, Raises e) => (l, Raises e)
  end.

Definition lift {A} (o : Outcome A) : M A := ([], o).

Definition emit (e : Event) : M unit := ([e], Returns tt).

Definition print (line : list Piece) : M unit := emit (EvPrint line).

(** The [raise] statement. *)
Definition py_raise {A} (o : RaiseOperand) : M A := ([], Raises (propagated o)).

Declare Scope py_scope.
Delimit Scope py_scope with py.
Notation "x <- m ;; k" := (bind m (fun x => k))
  (at level 61, m at next level, right associativity) : py_scope.
Notation "m ;;; k" := (bind m (fun _ => k))
  (at level 61, right associativity) : py_scope.
Local Open Scope py_scope.

(** [for x in l: body] where [body] may execute [return]: [Some b] is a
    [return b] inside the loop, [None] falls through to the next element. *)
Fixpoint for_return {A B} (l : list A) (body : A -> M (option B)) : M (option B) :=
  match l with
  | [] => ret None
  | x :: l' =>
      r <- body x ;;
      match r with
      | Some b => ret (Some b)
      | None => for_return l' body
      end
  end.

(** [for x in l: st = body(st, x)]. *)
Fixpoint for_each {A S} (l : list A) (body : S -> A -> M S) (st : S) : M S :=
  match l with
  | [] => ret st
  | x :: l' => st' <- body st x ;; for_each l' body st'
  end.

(** The outcome monad of pure library calls. *)
Definition obind {A B} (o : Outcome A) (f : A -> Outcome B) : Outcome B :=
  match o with
  | Returns a => f a
  | Raises e => Raises e
  end.

Fixpoint omap {A B} (f : A -> Outcome B) (l : list A) : Outcome (list B) :=
  match l with
  | [] => Returns []
  | x :: l' =>
      obind (f x) (fun y => obind (omap f l') (fun ys => Returns (y :: ys)))
  end.

(** [str(x)] of a CRS attribute, as an f-string prints it. *)
Definition crs_str (c : option string) : string :=
  match c with
  | Some s => s
  | None => "None"
  end.

(** int64 arithmetic of numeric columns wraps around. *)
Definition wrap64 (z : Z) : Z := (z + 2 ^ 63) mod 2 ^ 64 - 2 ^ 63.

Set Implicit Arguments.

Section Program.

(** [F]: binary64 floats; [G]: shapely geometries. *)
Variables F G : Type.

(** ** Tables *)

(** [CNull] is pandas' missing value ([NaN] / [None]). *)
Inductive Cell : Type :=
| CNull
| CInt (z : Z)
| CFloat (x : F)
| CStr (s : string)
| CGeom (g : G).

(** A row: its index label and its cells by column name; a column the row
    has no entry for reads as missing. *)
Record Row : Type := mkRow { idx : Z; cells : list (string * Cell) }.

(** A (Geo)DataFrame: column names in order, rows in order, the name of
    the active geometry column and the CRS it is tagged with (both [None]
    for a plain DataFrame). *)
Record DataFrame : Type := mkDF {
  columns : list string;
  rows : list Row;
  geometry : option string;
  crs_tag : option string }.

Fixpoint lookup {V} (c : string) (l : list (string * V)) : option V :=
  match l with
  | [] => None
  | (k, v) :: l' => if String.eqb k c then Some v else lookup c l'
  end.

Definition get (r : Row) (c : string) : Cell :=
  match lookup c (cells r) with
  | Some v => v
  | None => CNull
  end.

Fixpoint assoc_set {V} (c : string) (v : V) (l : list (string * V)) : list (string * V) :=
  match l with
  | [] => [(c, v)]
  | (k, w) :: l' => if String.eqb k c then (k, v) :: l' else (k, w) :: assoc_set c v l'
  end.

Definition row_set (r : Row) (c : string) (v : Cell) : Row :=
  mkRow (idx r) (assoc_set c v (cells r)).

Definition has_col (df : DataFrame) (c : string) : bool :=
  existsb (String.eqb c) (columns df).

Definition add_col (cols : list string) (c : string) : list string :=
  if existsb (String.eqb c) cols then cols else cols ++ [c].

(** [len(df)]. *)
Definition len (df : DataFrame) : nat := length (rows df).

(** [df[c]]. *)
Definition getitem (df : DataFrame) (c : string) : Outcome (list Cell) :=
  if has_col df c then Returns (map (fun r => get r c) (rows df))
  else Raises (KeyError c).

Fixpoint zip_set (c : string) (rs : list Row) (vs : list Cell) : list Row :=
  match rs, vs with
  | r :: rs', v :: vs' => row_set r c v :: zip_set c rs' vs'
  | _, _ => []
  end.

(** [df[c] = values]. *)
Definition setitem (df : DataFrame) (c : string) (vs : list Cell) : Outcome DataFrame :=
  if Nat.eqb (length vs) (length (rows df))
  then Returns (mkDF (add_col (columns df) c) (zip_set c (rows df) vs)
                     (geometry df) (crs_tag df))
  else Raises (ValueError "Length of values does not match length of index").

(** [df[c] = v] for a scalar [v]. *)
Definition setitem_scalar (df : DataFrame) (c : string) (v : Cell) : DataFrame :=
  mkDF (add_col (columns df) c) (map (fun r => row_set r c v) (rows df))
       (geometry df) (crs_tag df).

Definition notna (v : Cell) : bool :=
  match v with
  | CNull => false
  | _ => true
  end.

(** [df[df[c].notna()]]. *)
Definition keep_notna (df : DataFrame) (c : string) : Outcome DataFrame :=
  if has_col df c
  then Returns (mkDF (columns df) (filter (fun r => notna (get r c)) (rows df))
                     (geometry df) (crs_tag df))
  else Raises (KeyError c).

Definition neqb (a b : string) : bool := negb (String.eqb a b).

(** [df.drop(columns=[c])]. *)
Definition drop_column (df : DataFrame) (c : string) : Outcome DataFrame :=
  if has_col df c
  then Returns (mkDF (filter (neqb c) (columns df))
                     (map (fun r => mkRow (idx r)
                                      (filter (fun kv => neqb c (fst kv)) (cells r)))
                          (rows df))
                     (match geometry df with
                      | Some g => if String.eqb g c then None else Some g
                      | None => None
                      end)
                     (crs_tag df))
  else Raises (KeyError c).

(** [pd.DataFrame()]. *)
Definition empty_frame : DataFrame := mkDF [] [] None None.

Definition is_empty_frame (df : DataFrame) : bool :=
  match columns df, rows df with
  | [], [] => true
  | _, _ => false
  end.

(** [pd.concat([a, b])]: an empty first frame is left out; otherwise the
    schema is the union of both (first frame's columns first), rows follow
    each other with their index labels kept, and a column a row lacks reads
    as missing. *)
Definition concat (a b : DataFrame) : DataFrame :=
  if is_empty_frame a then b
  else mkDF (fold_left add_col (columns b) (columns a))
            (rows a ++ rows b) (geometry a) (crs_tag a).

(** ** The libraries and the environment *)

Record Library : Type := {
  (** pyproj: a table's CRS compared with a CRS string. *)
  crs_eq : string -> string -> bool;
  (** [gdf.to_crs(crs)]. *)
  to_crs : DataFrame -> string -> Outcome DataFrame;
  (** [gpd.points_from_xy(x=..., y=..., crs=...)]. *)
  points_from_xy : list Cell -> list Cell -> string -> Outcome (list Cell);
  (** shapely: [geom.buffer(distance)]. *)
  buffer : G -> Z -> G;
  (** shapely: [a.within(b)]. *)
  within : G -> G -> bool;
  (** Python's float [+] and comparison, pandas' sum of a float column, and
      int to float. *)
  fadd : F -> F -> F;
  fcompare : F -> F -> comparison;
  fsum : list F -> F;
  float_of_int : Z -> F }.

Record Env : Type := {
  (** [os.listdir(path)]. *)
  listdir : Path -> Outcome (list string);
  (** [pd.read_csv(path)]. *)
  read_csv : Path -> Outcome DataFrame;
  (** [gdf.to_file(path)]. *)
  to_file : Path -> DataFrame -> Outcome unit }.

Variable L : Library.
Variable E : Env.

Definition os_listdir (p : Path) : M (list string) :=
  emit (EvListdir p) ;;; lift (listdir E p).

Definition pd_read_csv (p : Path) : M DataFrame :=
  emit (EvReadCsv p) ;;; lift (read_csv E p).

Definition gdf_to_file (df : DataFrame) (p : Path) : M unit :=
  emit (EvToFile p) ;;; lift (to_file E p df).

(** [gdf.crs == c]; a table without CRS carries [None], which equals no
    string. *)
Definition crs_is (df : DataFrame) (c : string) : bool :=
  match crs_tag df with
  | Some c' => crs_eq L c' c
  | None => false
  end.

(** [gdf.crs != c]. *)
Definition crs_isnt (df : DataFrame) (c : string) : bool := negb (crs_is df c).

(** ** create_geospatial_dataset *)

Definition create_geospatial_dataset
  (df : DataFrame) (x_col y_col crs : string) : M DataFrame :=
  xs <- lift (getitem df x_col) ;;
  ys <- lift (getitem df y_col) ;;
  pts <- lift (points_from_xy L xs ys crs) ;;
  df1 <- lift (setitem df "geometry" pts) ;;
  let geo_df := mkDF (columns df1) (rows df1) (Some "geometry") (Some crs) in
  if crs_isnt geo_df crs then lift (to_crs L geo_df crs) else ret geo_df.

(** ** apply_point_buffer *)

(** Whether [gdf[c]] is a GeoSeries, which has [buffer], or a plain
    Series, which has not.  pandas decides by the column's type, not cell
    by cell: a geometry column holds nothing but geometries and missing
    values, and is here the table's active geometry column or a column
    with at least one geometry; any other column, an empty or all-missing
    one included, is a plain Series. *)
Definition geometry_or_missing (v : Cell) : bool :=
  match v with
  | CGeom _ | CNull => true
  | _ => false
  end.

Definition is_geometry (v : Cell) : bool :=
  match v with
  | CGeom _ => true
  | _ => false
  end.

Definition is_geoseries (gdf : DataFrame) (c : string) (col : list Cell) : bool :=
  forallb geometry_or_missing col
  && ((match geometry gdf with
       | Some g => String.eqb g c
       | None => false
       end)
      || existsb is_geometry col).

(** [geoseries.buffer(distance)], element by element: a missing geometry
    stays missing. *)
Definition buffer_cell (buffer_m : Z) (v : Cell) : Cell :=
  match v with
  | CGeom g => CGeom (buffer L g buffer_m)
  | _ => v
  end.

(** [gdf[c].buffer(distance)]. *)
Definition series_buffer
  (gdf : DataFrame) (c : string) (buffer_m : Z) (col : list Cell) : Outcome (list Cell) :=
  if is_geoseries gdf c col
  then Returns (map (buffer_cell buffer_m) col)
  else Raises (AttributeError "'Series' object has no attribute 'buffer'").

Definition apply_point_buffer
  (gdf : DataFrame) (buffer_m : Z) (geom_col : string) : M DataFrame :=
  print [PStr "Applying point buffer of "; PInt buffer_m; PStr " metres"] ;;;
  gdf1 <- (if crs_isnt gdf "EPSG:27700"
           then lift (to_crs L gdf "EPSG:27700")
           else ret gdf) ;;
  if crs_isnt gdf1 "EPSG:27700"
  then py_raise (OpStr ("Error: GDF could not be converted from "
                        ++ crs_str (crs_tag gdf1) ++ " to EPSG:27700"))
  else
    col <- lift (getitem gdf1 geom_col) ;;
    buffered <- lift (series_buffer gdf1 geom_col buffer_m col) ;;
    gdf2 <- lift (setitem gdf1 ("buffered_" ++ geom_col) buffered) ;;
    print [PStr "Buffer created on "; PCount (len gdf2);
           PStr (" points from '" ++ geom_col ++ "' as 'buffered_"
                 ++ geom_col ++ "'")] ;;;
    ret gdf2.

(** The table [apply_point_buffer] buffers, named for the statements
    below: its input, reprojected when the input's CRS is not the national
    grid (the first [if] of [apply_point_buffer]). *)
Definition reprojected (gdf : DataFrame) : Outcome DataFrame :=
  if crs_isnt gdf "EPSG:27700" then to_crs L gdf "EPSG:27700" else Returns gdf.

(** ** check_crs *)

Definition check_crs (gdf : DataFrame) (crs : string) : M DataFrame :=
  if crs_is gdf crs then ret gdf
  else
    gdf1 <- (if crs_isnt gdf crs
             then
               print [PStr ("Detected crs:" ++ crs_str (crs_tag gdf)
                            ++ ", transforming to: " ++ crs)] ;;;
               lift (to_crs L gdf crs)
             else ret gdf) ;;
    if crs_is gdf1 crs then ret gdf1
    else
      gdf2 <- lift (to_crs L gdf1 crs) ;;
      if crs_is gdf2 crs then ret gdf2
      else py_raise (OpStr ("ERROR: Could not convert gdf from "
                            ++ crs_str (crs_tag gdf2) ++ " to " ++ crs)).


(** ** read_naptan_data *)

(** [None] is Python's [None], returned when the loop body never runs. *)
Definition read_naptan_data
  (data_dir : Path) (x_col y_col crs : string) (export_geo : bool)
  : M (option DataFrame) :=
  names <- os_listdir data_dir ;;
  let stops_files := filter (contains ".csv") names in
  for_return stops_files (fun file =>
    print [PStr ("Reading NaPTAN: " ++ file)] ;;;
    stop_data <- pd_read_csv (path_div data_dir file) ;;
    geo_stop_data <- create_geospatial_dataset stop_data x_col y_col crs ;;
    (if export_geo
     then
       let filename := ("geo_" ++ replace ".csv" ".gpkg" file)%string in
       print [PStr ("Exporting Geo NaPTAN data: " ++ filename)] ;;;
       gdf_to_file geo_stop_data (path_div data_dir filename)
     else ret tt) ;;;
    ret (Some geo_stop_data)).

(** ** read_and_create_geo_data *)

(** A Python [dict] with string keys, in insertion order. *)
Definition Dict (V : Type) : Type := list (string * V).

Definition AllData : Type := Dict (Dict DataFrame).

(** [all_data[year][name] = data]; [all_data[year]] exists when this runs. *)
Definition store (all_data : AllData) (year name : string) (data : DataFrame) : AllData :=
  match lookup year all_data with
  | Some inner => assoc_set year (assoc_set name data inner) all_data
  | None => all_data
  end.

Definition read_and_create_geo_data
  (data_dir : Path) (x_col y_col crs : string) (export_geo : bool)
  : M (AllData * DataFrame) :=
  crime_data_directories <- os_listdir data_dir ;;
  emit (EvPbarNew (length crime_data_directories)) ;;;
  for_each crime_data_directories
    (fun (st : AllData * DataFrame) directory =>
       let year := take_chars 4 directory in
       let all_data :=
         match lookup year (fst st) with
         | Some _ => fst st
         | None => assoc_set year [] (fst st)
         end in
       let path := path_div CRIME_DATA_PATH directory in
       names <- os_listdir path ;;
       let crime_data_files := filter (contains ".csv") names in
       st' <- for_each crime_data_files
         (fun (st : AllData * DataFrame) file =>
            emit (EvPbarDescription ("Reading: " ++ file)) ;;;
            data <- pd_read_csv (path_div path file) ;;
            data <- create_geospatial_dataset data x_col y_col crs ;;
            (if export_geo
             then gdf_to_file data
                    (path_div path ("geo_" ++ replace ".csv" ".gpkg" file))
             else ret tt) ;;;
            ret (store (fst st) year (replace ".csv" "" file) data,
                 concat (snd st) data))
         (all_data, snd st) ;;
       emit (EvPbarUpdate 1) ;;;
       ret st')
    ([], empty_frame).

(** ** gpd.sjoin(how="inner", predicate="within") *)

(** The join keeps the left table's columns, adds [index_right] and the
    right table's columns other than its geometry; a name on both sides
    gets the suffix [_left] or [_right]. *)
Definition sjoin_left_name (left right : DataFrame) (rg c : string) : string :=
  if has_col right c && neqb rg c then (c ++ "_left")%string else c.

Definition sjoin_right_name (left : DataFrame) (c : string) : string :=
  if has_col left c then (c ++ "_right")%string else c.

Definition sjoin_match (lg rg : string) (l r : Row) : bool :=
  match get l lg, get r rg with
  | CGeom p, CGeom q => within L p q
  | _, _ => false
  end.

Definition sjoin_row (left right : DataFrame) (rg : string) (l r : Row) : Row :=
  mkRow (idx l)
    (map (fun c => (sjoin_left_name left right rg c, get l c)) (columns left)
     ++ [("index_right", CInt (idx r))]
     ++ map (fun c => (sjoin_right_name left c, get r c))
            (filter (neqb rg) (columns right))).

(** One joined row per pair (left row, right row) whose left geometry is
    within the right geometry, in left order, then right order.  The
    library refuses frames that already have an [index_left] or
    [index_right] column. *)
Definition sjoin_within (left_df right_df : DataFrame) : Outcome DataFrame :=
  match geometry left_df, geometry right_df with
  | Some lg, Some rg =>
      if existsb (fun c => has_col left_df c || has_col right_df c)
           ["index_left"; "index_right"]
      then Raises (ValueError
             "'index_left' and 'index_right' cannot be names in the frames being joined")
      else
      Returns
        (mkDF (map (sjoin_left_name left_df right_df rg) (columns left_df)
               ++ ["index_right"]
               ++ map (sjoin_right_name left_df) (filter (neqb rg) (columns right_df)))
              (flat_map
                 (fun l => map (sjoin_row left_df right_df rg l)
                             (filter (sjoin_match lg rg l) (rows right_df)))
                 (rows left_df))
              (Some (sjoin_left_name left_df right_df rg lg))
              (crs_tag left_df))
  | _, _ => Raises (ValueError "sjoin: both frames should be GeoDataFrames")
  end.

(** ** groupby(keys).sum() *)

(** A group key component.  Missing values are no key (rows with one are
    left out of every group); a geometry cannot be a key. *)
Inductive Key : Type :=
| KInt (z : Z)
| KFloat (x : F)
| KStr (s : string).

Definition key_of (v : Cell) : Outcome (option Key) :=
  match v with
  | CNull => Returns None
  | CInt z => Returns (Some (KInt z))
  | CFloat x => Returns (Some (KFloat x))
  | CStr s => Returns (Some (KStr s))
  | CGeom _ => Raises (TypeError "geometry is not a group key")
  end.

(** Keys are ordered numbers first (by value), then text (by code point). *)
Definition key_compare (a b : Key) : comparison :=
  match a, b with
  | KInt x, KInt y => Z.compare x y
  | KInt x, KFloat y => fcompare L (float_of_int L x) y
  | KFloat x, KInt y => fcompare L x (float_of_int L y)
  | KFloat x, KFloat y => fcompare L x y
  | KStr x, KStr y => String.compare x y
  | KStr _, _ => Gt
  | _, KStr _ => Lt
  end.

Fixpoint keys_compare (a b : list Key) : comparison :=
  match a, b with
  | [], [] => Eq
  | [], _ :: _ => Lt
  | _ :: _, [] => Gt
  | x :: a', y :: b' =>
      match key_compare x y with
      | Eq => keys_compare a' b'
      | c => c
      end
  end.

Definition keys_eqb (a b : list Key) : bool :=
  match keys_compare a b with
  | Eq => true
  | _ => false
  end.

Definition keys_leb (a b : list Key) : bool :=
  match keys_compare a b with
  | Gt => false
  | _ => true
  end.

Fixpoint insert_key (k : list Key) (l : list (list Key)) : list (list Key) :=
  match l with
  | [] => [k]
  | k' :: l' => if keys_leb k k' then k :: l else k' :: insert_key k l'
  end.

Fixpoint sort_keys (l : list (list Key)) : list (list Key) :=
  match l with
  | [] => []
  | k :: l' => insert_key k (sort_keys l')
  end.

(** The distinct keys, each at its first occurrence. *)
Fixpoint distinct_keys (l : list (list Key)) : list (list Key) :=
  match l with
  | [] => []
  | k :: l' => k :: filter (fun k' => negb (keys_eqb k k')) (distinct_keys l')
  end.

Fixpoint all_some {A} (l : list (option A)) : option (list A) :=
  match l with
  | [] => Some []
  | Some a :: l' =>
      match all_some l' with
      | Some r => Some (a :: r)
      | None => None
      end
  | None :: _ => None
  end.

(** The key of a row under the grouping columns; [None] when a component
    is missing. *)
Definition row_key (keys : list string) (r : Row) : Outcome (option (list Key)) :=
  obind (omap (fun k => key_of (get r k)) keys) (fun ks => Returns (all_some ks)).

Definition in_group (k : list Key) (kr : option (list Key) * Row) : bool :=
  match fst kr with
  | Some k' => keys_eqb k k'
  | None => false
  end.

Inductive DType : Type := DInt | DFloat | DObject.

Definition is_object (v : Cell) : bool :=
  match v with
  | CStr _ | CGeom _ => true
  | _ => false
  end.

Definition is_floating (v : Cell) : bool :=
  match v with
  | CFloat _ | CNull => true
  | _ => false
  end.

(** The dtype pandas gives a column holding these cells. *)
Definition dtype_of (col : list Cell) : DType :=
  if existsb is_object col then DObject
  else if existsb is_floating col then DFloat
  else DInt.

(** Python's [a + b]. *)
Definition py_add (a b : Cell) : Outcome Cell :=
  match a, b with
  | CStr x, CStr y => Returns (CStr (x ++ y))
  | CInt x, CInt y => Returns (CInt (x + y))
  | CInt x, CFloat y => Returns (CFloat (fadd L (float_of_int L x) y))
  | CFloat x, CInt y => Returns (CFloat (fadd L x (float_of_int L y)))
  | CFloat x, CFloat y => Returns (CFloat (fadd L x y))
  | _, _ => Raises (TypeError "unsupported operand type(s) for +")
  end.

Fixpoint object_sum_from (acc : Cell) (vs : list Cell) : Outcome Cell :=
  match vs with
  | [] => Returns acc
  | v :: vs' => obind (py_add acc v) (fun acc' => object_sum_from acc' vs')
  end.

(** Sum of an object column's group, which [sum()] includes since it does
    not restrict itself to numeric columns: missing values are skipped,
    the first value starts the sum, the others are added with [+] in row
    order; a group with no value sums to 0. *)
Definition object_sum (vs : list Cell) : Outcome Cell :=
  match filter notna vs with
  | [] => Returns (CInt 0)
  | v :: vs' => object_sum_from v vs'
  end.

Definition int_of (v : Cell) : Z :=
  match v with
  | CInt z => z
  | _ => 0%Z
  end.

Definition floats_of (v : Cell) : list F :=
  match v with
  | CInt z => [float_of_int L z]
  | CFloat x => [x]
  | _ => []
  end.

(** [sum] of one column over one group, by the column's dtype. *)
Definition group_sum (dt : DType) (vs : list Cell) : Outcome Cell :=
  match dt with
  | DInt => Returns (CInt (wrap64 (fold_right Z.add 0%Z (map int_of vs))))
  | DFloat => Returns (CFloat (fsum L (flat_map floats_of vs)))
  | DObject => object_sum vs
  end.

(** The result of a grouped aggregation: the grouping columns form the
    index, each row carries its key and the aggregated columns. *)
Record Grouped : Type := mkGrouped {
  index_names : list string;
  value_columns : list string;
  groups : list (list Key * list (string * Cell)) }.

Definition column_cells (rs : list Row) (c : string) : list Cell :=
  map (fun r => get r c) rs.

Definition first_missing (df : DataFrame) (cols : list string) : option string :=
  find (fun c => negb (has_col df c)) cols.

Definition groupby_sum (df : DataFrame) (keys : list string) : Outcome Grouped :=
  match first_missing df keys with
  | Some c => Raises (KeyError c)
  | None =>
      obind (omap (fun r => obind (row_key keys r) (fun k => Returns (k, r))) (rows df))
        (fun keyed =>
           let gkeys := sort_keys (distinct_keys
                          (flat_map (fun kr => match fst kr with
                                               | Some k => [k]
                                               | None => []
                                               end) keyed)) in
           let vcols := filter (fun c => negb (existsb (String.eqb c) keys)) (columns df) in
           obind
             (omap (fun k =>
                      let members := map snd (filter (in_group k) keyed) in
                      obind (omap (fun c =>
                                     obind (group_sum (dtype_of (column_cells (rows df) c))
                                                      (column_cells members c))
                                       (fun v => Returns (c, v)))
                                  vcols)
                        (fun vs => Returns (k, vs)))
                   gkeys)
             (fun gs => Returns (mkGrouped keys vcols gs)))
  end.

(** For the statements below: the keys of the rows that have one, the
    value columns, and the rows of group [k]. *)
Definition live_keys (df : DataFrame) (keys : list string) : list (list Key) :=
  flat_map (fun r => match row_key keys r with
                     | Returns (Some k) => [k]
                     | _ => []
                     end) (rows df).

Definition value_cols (df : DataFrame) (keys : list string) : list string :=
  filter (fun c => negb (existsb (String.eqb c) keys)) (columns df).

Definition row_in_group (keys : list string) (k : list Key) (r : Row) : bool :=
  match row_key keys r with
  | Returns (Some k') => keys_eqb k k'
  | _ => false
  end.

Definition group_rows (df : DataFrame) (keys : list string) (k : list Key) : list Row :=
  filter (row_in_group keys k) (rows df).







(** [grouped[[c1, ..., cn]]]. *)
Definition select (g : Grouped) (cols : list string) : Outcome Grouped :=
  match find (fun c => negb (existsb (String.eqb c) (value_columns g))) cols with
  | Some c => Raises (KeyError c)
  | None =>
      Returns (mkGrouped (index_names g) cols
                 (map (fun kv => (fst kv,
                                  map (fun c => (c, match lookup c (snd kv) with
                                                    | Some v => v
                                                    | None => CNull
                                                    end)) cols))
                      (groups g)))
  end.

(** ** main *)

(** [gpd.GeoDataFrame(data=df, geometry=name)]. *)
Definition set_active_geometry (df : DataFrame) (name : string) : Outcome DataFrame :=
  if has_col df name
  then Returns (mkDF (columns df) (rows df) (Some name) (crs_tag df))
  else Raises (ValueError "Unknown column").

(** [len(x)] where [x] may be [None]. *)
Definition len_opt (x : option DataFrame) : M (DataFrame * nat) :=
  match x with
  | Some df => ret (df, len df)
  | None => py_raise (OpExc (TypeError "object of type 'NoneType' has no len()"))
  end.

(** [df["crime_count"] = 1]. *)
Definition with_unit_count (df : DataFrame) : DataFrame :=
  setitem_scalar df "crime_count" (CInt 1).

(** For the statements below: a joined row as the grouping sees it, with
    its unit count and without its point geometry. *)
Definition counted_row (r : Row) : Row :=
  mkRow (idx r)
    (filter (fun kv => neqb GEOMETRY_COL (fst kv))
            (cells (row_set r "crime_count" (CInt 1)))).

(** [df.drop(columns=[GEOMETRY_COL]).groupby(GROUPBY_COLS).sum()]. *)
Definition sum_per_group (df : DataFrame) : Outcome Grouped :=
  obind (drop_column df GEOMETRY_COL) (fun d => groupby_sum d GROUPBY_COLS).

(** The variables of [main] when it ends. *)
Record Locals : Type := mkLocals {
  crime_data : AllData;
  combined_crime_data : DataFrame;
  naptan_data : DataFrame;
  crime_near_naptan_stops : DataFrame;
  crimes_per_stop : Grouped;
  crimes_per_stop_filtered : Grouped }.

Definition newline : string := String (ascii_of_nat 10) EmptyString.

Definition main : M Locals :=
  loaded <- read_and_create_geo_data CRIME_DATA_PATH
              "Longitude" "Latitude" "EPSG:4326" false ;;
  let crime_data := fst loaded in
  let combined_crime_data := snd loaded in
  print [PStr "Crime data created for "; PCount (len combined_crime_data);
         PStr " offences."] ;;;
  naptan_data <- read_naptan_data NAPTAN_DIR
                   "Longitude" "Latitude" "EPSG:4326" false ;;
  sized <- len_opt naptan_data ;;
  let naptan_data := fst sized in
  print [PStr "NaPTAN data loaded for "; PCount (snd sized); PStr " PT stops."] ;;;
  naptan_data <- lift (keep_notna naptan_data GEOMETRY_COL) ;;
  combined_crime_data <- lift (keep_notna combined_crime_data GEOMETRY_COL) ;;
  print [PStr "Removing combined crime data for crimes > 12 months ago."] ;;;
  naptan_data <- apply_point_buffer naptan_data NAPTAN_BUFFER_M GEOMETRY_COL ;;
  naptan_data <- lift (drop_column naptan_data GEOMETRY_COL) ;;
  naptan_data <- lift (set_active_geometry naptan_data ("buffered_" ++ GEOMETRY_COL)) ;;
  naptan_data <- check_crs naptan_data "EPSG:27700" ;;
  combined_crime_data <- check_crs combined_crime_data "EPSG:27700" ;;
  print [PStr "Commening sjoin: "; PClock] ;;;
  crime_near_naptan_stops <- lift (sjoin_within combined_crime_data naptan_data) ;;
  let crime_near_naptan_stops := with_unit_count crime_near_naptan_stops in
  print [PStr "sjoin complete: "; PClock] ;;;
  crimes_per_stop <- lift (sum_per_group crime_near_naptan_stops) ;;
  crimes_per_stop_filtered <- lift (select crimes_per_stop RETAINED_COLS) ;;
  print [PStr newline; PCount (length (groups crimes_per_stop_filtered));
         PStr " stops have crime within "; PInt NAPTAN_BUFFER_M;
         PStr " metres of NaPTAN stops "; PClock] ;;;
  ret (mkLocals crime_data combined_crime_data naptan_data
         crime_near_naptan_stops crimes_per_stop crimes_per_stop_filtered).

End Program.

Arguments CNull {F G}.
Arguments CInt {F G} z.
Arguments CFloat {F G} x.
Arguments CStr {F G} s.
Arguments CGeom {F G} g.
Arguments KInt {F} z.
Arguments KFloat {F} x.
Arguments KStr {F} s.
Arguments empty_frame {F G}.

Unset Implicit Arguments.

(** ** A reference library and sample inputs

    Planar geometry on integer metres, used to run the script on concrete
    inputs: a point, or the open disc a point is buffered to.  Numbers
    stand in for floats, CRS strings compare by spelling, and reprojection
    re-tags the table. *)

Inductive PlanarGeom : Type :=
| PPoint (x y : Z)
| PDisc (cx cy r : Z)
| PNan
| PPolygon (ring : list (Z * Z)).

Definition PCell : Type := Cell Z PlanarGeom.
Definition PRow : Type := Row Z PlanarGeom.
Definition PFrame : Type := DataFrame Z PlanarGeom.

(** [PNan] is the point built from a missing coordinate, POINT (NaN NaN):
    a geometry, not a missing value, that lies within nothing.
    [PPolygon] is a convex polygon by its ring of corners, counter-clockwise. *)
Definition planar_buffer (g : PlanarGeom) (d : Z) : PlanarGeom :=
  match g with
  | PPoint x y => PDisc x y d
  | PDisc cx cy r => PDisc cx cy (r + d)
  | other => other
  end.

(** A point is within a convex polygon when it is strictly to the left of
    every edge. *)
Fixpoint left_of_edges (x y : Z) (a : Z * Z) (ring : list (Z * Z)) : bool :=
  match ring with
  | [] => true
  | b :: ring' =>
      (0 <? (fst b - fst a) * (y - snd a) - (snd b - snd a) * (x - fst a))%Z
      && left_of_edges x y b ring'
  end.

Definition planar_within (a b : PlanarGeom) : bool :=
  match a, b with
  | PPoint x y, PDisc cx cy r =>
      ((x - cx) * (x - cx) + (y - cy) * (y - cy) <? r * r)%Z
  | PPoint x y, PPolygon (c :: ring) => left_of_edges x y c (ring ++ [c])
  | _, _ => false
  end.

Definition planar_point (x y : PCell) : Outcome PCell :=
  match x, y with
  | CInt a, CInt b | CInt a, CFloat b | CFloat a, CInt b | CFloat a, CFloat b =>
      Returns (CGeom (PPoint a b))
  | CNull, (CNull | CInt _ | CFloat _) | (CInt _ | CFloat _), CNull =>
      Returns (CGeom PNan)
  | _, _ => Raises (TypeError "coordinates must be numbers")
  end.

Fixpoint planar_points (xs ys : list PCell) : Outcome (list PCell) :=
  match xs, ys with
  | x :: xs', y :: ys' =>
      obind (planar_point x y)
        (fun p => obind (planar_points xs' ys') (fun ps => Returns (p :: ps)))
  | _, _ => Returns []
  end.

Definition planar_to_crs (df : PFrame) (crs : string) : Outcome PFrame :=
  match crs_tag df with
  | Some _ => Returns (mkDF (columns df) (rows df) (geometry df) (Some crs))
  | None => Raises (ValueError "Cannot transform naive geometries")
  end.

Definition planar : Library Z PlanarGeom :=
  {| crs_eq := String.eqb;
     to_crs := planar_to_crs;
     points_from_xy := fun xs ys _ => planar_points xs ys;
     buffer := planar_buffer;
     within := planar_within;
     fadd := Z.add;
     fcompare := Z.compare;
     fsum := fun l => fold_right Z.add 0%Z l;
     float_of_int := fun z => z |}.

(** The same library with a reprojection that hands the table back as it
    is: the situation the CRS checks of the script are written for. *)
Definition stuck : Library Z PlanarGeom :=
  {| crs_eq := String.eqb;
     to_crs := fun df _ => Returns df;
     points_from_xy := fun xs ys _ => planar_points xs ys;
     buffer := planar_buffer;
     within := planar_within;
     fadd := Z.add;
     fcompare := Z.compare;
     fsum := fun l => fold_right Z.add 0%Z l;
     float_of_int := fun z => z |}.

(** A crime CSV row and a stops CSV row, with the columns the final
    projection of [main] asks for. *)
Definition crime_row (i : Z) (id : string) (lon lat : PCell) (kind place : string) : PRow :=
  mkRow i
    [("Crime ID", CStr id); ("Month", CStr "2023-01");
     ("Reported by", CStr "Force"); ("Falls within", CStr "Force");
     ("Longitude", lon); ("Latitude", lat); ("Location", CStr place);
     ("LSOA code", CStr "E01"); ("LSOA name", CStr "Leeds 001A");
     ("Crime type", CStr kind); ("Last outcome category", CNull)].

Definition crime_columns : list string :=
  ["Crime ID"; "Month"; "Reported by"; "Falls within"; "Longitude";
   "Latitude"; "Location"; "LSOA code"; "LSOA name"; "Crime type";
   "Last outcome category"].

Definition stop_row (i : Z) (atco : string) (code : PCell) (lon lat : PCell) : PRow :=
  mkRow i
    [("ATCOCode", CStr atco); ("NaptanCode", code); ("CommonName", CStr "Stop");
     ("Landmark", CNull); ("Street", CStr "High Street");
     ("NptgLocalityCode", CStr "E0"); ("LocalityName", CStr "Leeds");
     ("Longitude", lon); ("Latitude", lat); ("Status", CStr "active");
     ("CreationDateTime", CStr "2010"); ("ModificationDateTime", CStr "2020")].

Definition stop_columns : list string :=
  ["ATCOCode"; "NaptanCode"; "CommonName"; "Landmark"; "Street";
   "NptgLocalityCode"; "LocalityName"; "Longitude"; "Latitude"; "Status";
   "CreationDateTime"; "ModificationDateTime"].

Definition csv (cols : list string) (rs : list PRow) : PFrame := mkDF cols rs None None.

(** One stop at the origin; incidents 10 m east, 200 m east and at
    (50, 50), and one incident without coordinates. *)
Definition sample_crimes : PFrame :=
  csv crime_columns
    [crime_row 0 "a" (CInt 10) (CInt 0) "Burglary" "On or near A";
     crime_row 1 "b" (CInt 200) (CInt 0) "Burglary" "On or near B";
     crime_row 2 "c" (CInt 50) (CInt 50) "Burglary" "On or near C";
     crime_row 3 "d" CNull CNull "Theft" "No location"].

Definition sample_stops : PFrame :=
  csv stop_columns [stop_row 0 "4500" (CStr "lds1") (CInt 0) (CInt 0)].

Definition path_eqb (p q : Path) : bool :=
  if list_eq_dec string_dec p q then true else false.

(** A file system with one month of crimes and one stops file (and a
    second stops file that is never opened). *)
Definition sample_env : Env Z PlanarGeom :=
  {| listdir := fun p =>
       if path_eqb p CRIME_DATA_PATH then Returns ["2023-01"]
       else if path_eqb p (path_div CRIME_DATA_PATH "2023-01")
            then Returns ["2023-01-street.csv"; "notes.txt"]
       else if path_eqb p NAPTAN_DIR then Returns ["readme.txt"; "Stops.csv"; "Old.csv"]
       else Raises (FileNotFoundError p);
     read_csv := fun p =>
       if path_eqb p (path_div (path_div CRIME_DATA_PATH "2023-01") "2023-01-street.csv")
       then Returns sample_crimes
       else if path_eqb p (path_div NAPTAN_DIR "Stops.csv") then Returns sample_stops
       else Raises (FileNotFoundError p);
     to_file := fun _ _ => Returns tt |}.

(** The same tree with a stops directory that holds no CSV file, and with
    no stops directory at all. *)
Definition no_stops_env : Env Z PlanarGeom :=
  {| listdir := fun p =>
       if path_eqb p NAPTAN_DIR then Returns ["readme.txt"] else listdir sample_env p;
     read_csv := read_csv sample_env;
     to_file := to_file sample_env |}.

Definition missing_dir_env : Env Z PlanarGeom :=
  {| listdir := fun p => Raises (FileNotFoundError p);
     read_csv := fun p => Raises (FileNotFoundError p);
     to_file := fun _ _ => Returns tt |}.

(** A stops table already converted to points and tagged EPSG:4326, and
    the same table tagged with the national grid. *)
Definition sample_geo_stops : PFrame :=
  mkDF ["NaptanCode"; "geometry"]
    [mkRow 0 [("NaptanCode", CStr "lds1"); ("geometry", CGeom (PPoint 0 0))];
     mkRow 1 [("NaptanCode", CStr "lds2"); ("geometry", CGeom (PPoint 120 0))]]
    (Some "geometry") (Some "EPSG:4326").

Definition sample_grid_stops : PFrame :=
  mkDF (columns sample_geo_stops) (rows sample_geo_stops)
    (Some "geometry") (Some "EPSG:27700").



(** Joined rows of one stop with three burglaries and two thefts, and of
    a second stop with one theft. *)
Definition joined_row (i : Z) (kind place : string) (p : PlanarGeom) (j : Z)
  (code : string) : PRow :=
  mkRow i
    [("Crime type", CStr kind); ("Location", CStr place); ("geometry", CGeom p);
     ("index_right", CInt j); ("NaptanCode", CStr code)].

Definition sample_joined : PFrame :=
  mkDF ["Crime type"; "Location"; "geometry"; "index_right"; "NaptanCode"]
    [joined_row 0 "Burglary" "A" (PPoint 10 0) 0 "lds1";
     joined_row 1 "Theft" "B" (PPoint 20 0) 0 "lds1";
     joined_row 1 "Theft" "B" (PPoint 20 0) 1 "lds2";
     joined_row 2 "Burglary" "C" (PPoint 0 30) 0 "lds1";
     joined_row 3 "Theft" "D" (PPoint 0 40) 0 "lds1";
     joined_row 4 "Burglary" "E" (PPoint 5 5) 0 "lds1"]
    (Some "geometry") (Some "EPSG:27700").

(** The run of [main] on the sample file system, and its stages. *)
Definition outcome_or {A} (o : Outcome A) (default : A) : A :=
  match o with
  | Returns a => a
  | Raises _ => default
  end.

Definition no_groups : Grouped Z PlanarGeom := mkGrouped [] [] [].

Definition sample_log : list Event := fst (main planar sample_env).

Definition sample_locals : Locals Z PlanarGeom :=
  outcome_or (snd (main planar sample_env))
    (mkLocals [] empty_frame empty_frame empty_frame no_groups no_groups).

Definition sample_join_result : PFrame :=
  outcome_or (sjoin_within planar (combined_crime_data sample_locals)
                (naptan_data sample_locals)) empty_frame.

Definition sample_dropped : PFrame :=
  outcome_or (drop_column (with_unit_count sample_join_result) GEOMETRY_COL) empty_frame.

(** For the statements on [read_and_create_geo_data]: the events a call
    with root listing [dirs] may produce, the progress updates of a log,
    and the year keys as the loop over the directories adds them. *)
Definition crime_loader_event
  (data_dir : Path) (dirs : list string) (export_geo : bool) (e : Event) : Prop :=
  match e with
  | EvListdir p =>
      p = data_dir \/ exists d, In d dirs /\ p = path_div CRIME_DATA_PATH d
  | EvReadCsv p =>
      exists d f, In d dirs /\ contains ".csv" f = true
                  /\ p = path_div (path_div CRIME_DATA_PATH d) f
  | EvToFile p =>
      export_geo = true
      /\ exists d f, In d dirs /\ contains ".csv" f = true
                     /\ p = path_div (path_div CRIME_DATA_PATH d)
                                     ("geo_" ++ replace ".csv" ".gpkg" f)
  | EvPbarNew n => n = length dirs
  | EvPbarDescription s => exists f, s = ("Reading: " ++ f)%string
  | EvPbarUpdate n => n = 1
  | EvPrint _ => False
  end.

Definition is_pbar_update (e : Event) : bool :=
  match e with
  | EvPbarUpdate _ => true
  | _ => false
  end.

Definition add_year (years : list string) (directory : string) : list string :=
  if existsb (String.eqb (take_chars 4 directory)) years
  then years
  else years ++ [take_chars 4 directory].

(** A file system whose crime directory is empty, next to the sample
    stops. *)
Definition no_crimes_env : Env Z PlanarGeom :=
  {| listdir := fun p =>
       if path_eqb p CRIME_DATA_PATH then Returns [] else listdir sample_env p;
     read_csv := read_csv sample_env;
     to_file := to_file sample_env |}.

(** For the statement on what [main] touches: the events a run of [main]
    may produce. *)
Definition main_event (e : Event) : Prop :=
  match e with
  | EvToFile _ => False
  | EvReadCsv p =>
      exists f, contains ".csv" f = true
                /\ (p = path_div NAPTAN_DIR f
                    \/ exists d, p = path_div (path_div CRIME_DATA_PATH d) f)
  | EvListdir p =>
      p = CRIME_DATA_PATH \/ p = NAPTAN_DIR \/ exists d, p = path_div CRIME_DATA_PATH d
  | _ => True
  end.





(** * Properties *)

(** ** The computation monad *)

Lemma bind_ret_l {A B} (a : A) (f : A -> M B) : bind (ret a) f = f a.
Proof. unfold bind, ret. destruct (f a). reflexivity. Qed.

Lemma bind_lift_returns {A B} (a : A) (f : A -> M B) :
  bind (lift (Returns a)) f = f a.
Proof. apply bind_ret_l. Qed.

Lemma bind_returns_inv {A B} (m : M A) (f : A -> M B) log b :
  bind m f = (log, Returns b) ->
  exists l1 a l2, m = (l1, Returns a) /\ f a = (l2, Returns b) /\ log = l1 ++ l2.
Proof.
  destruct m as [l1 [a|e]]; simpl.
  - destruct (f a) as [l2 r] eqn:Hf. intros H. inversion H; subst.
    exists l1, a, l2. auto.
  - discriminate.
Qed.

Lemma bind_intro {A B} (m : M A) (f : A -> M B) l1 a l2 r :
  m = (l1, Returns a) -> f a = (l2, r) -> bind m f = (l1 ++ l2, r).
Proof. intros -> H. simpl. now rewrite H. Qed.

Lemma lift_returns_inv {A} (o : Outcome A) log a :
  lift o = (log, Returns a) -> o = Returns a /\ log = [].
Proof. unfold lift. intros H. inversion H. auto. Qed.

Lemma omap_returns {A B} (f : A -> Outcome B) l ys :
  omap f l = Returns ys -> Forall2 (fun x y => f x = Returns y) l ys.
Proof.
  revert ys. induction l as [|x l IH]; simpl; intros ys H.
  - inversion H. constructor.
  - destruct (f x) as [y|e] eqn:Hx; simpl in H; [|discriminate].
    destruct (omap f l) as [ys'|e] eqn:Hl; simpl in H; [|discriminate].
    inversion H; subst. constructor; auto.
Qed.


(** Inversion of a [bind] that returned, and of a lifted library call. *)
Tactic Notation "bind_inv" hyp(H) "as" simple_intropattern(a) ident(Hm) :=
  let l1 := fresh "l" in
  let l2 := fresh "l" in
  let Hl := fresh "Hl" in
  apply bind_returns_inv in H as (l1 & a & l2 & Hm & H & Hl).

Ltac lift_inv H :=
  let Hl := fresh "Hl" in
  apply lift_returns_inv in H as [H Hl].

Section Properties.

Context {F G : Type}.
Variable L : Library F G.


(** ** Rows and columns *)

Lemma lookup_assoc_set_same {V} c (v : V) l : lookup c (assoc_set c v l) = Some v.
Proof.
  induction l as [|[k w] l IH]; simpl.
  - now rewrite String.eqb_refl.
  - destruct (String.eqb k c) eqn:Hk; simpl; rewrite Hk; auto.
Qed.

Lemma lookup_assoc_set_other {V} c c' (v : V) l :
  c' <> c -> lookup c' (assoc_set c v l) = lookup c' l.
Proof.
  intros Hne. induction l as [|[k w] l IH]; simpl.
  - destruct (String.eqb c c') eqn:Hc; auto.
    apply String.eqb_eq in Hc. congruence.
  - destruct (String.eqb k c) eqn:Hk; simpl.
    + apply String.eqb_eq in Hk. subst k.
      destruct (String.eqb c c') eqn:Hc; auto.
      apply String.eqb_eq in Hc. congruence.
    + destruct (String.eqb k c'); auto.
Qed.

Lemma get_row_set_same (r : Row F G) c v : get (row_set r c v) c = v.
Proof. unfold get, row_set. simpl. now rewrite lookup_assoc_set_same. Qed.

Lemma get_row_set_other (r : Row F G) c c' v :
  c' <> c -> get (row_set r c v) c' = get r c'.
Proof. intros H. unfold get, row_set. simpl. now rewrite lookup_assoc_set_other. Qed.

Lemma has_col_add_col (cols : list string) c :
  existsb (String.eqb c) (add_col cols c) = true.
Proof.
  unfold add_col. destruct (existsb (String.eqb c) cols) eqn:Hc; auto.
  rewrite existsb_app. simpl. rewrite String.eqb_refl. apply orb_true_r.
Qed.

(** ** check_crs *)

Lemma check_crs_matching (gdf : DataFrame F G) c :
  crs_is L gdf c = true -> check_crs L gdf c = ret gdf.
Proof. intros H. unfold check_crs. now rewrite H. Qed.

Lemma check_crs_returns_tagged (gdf : DataFrame F G) c log g :
  check_crs L gdf c = (log, Returns g) -> crs_is L g c = true.
Proof.
  unfold check_crs, crs_isnt.
  destruct (crs_is L gdf c) eqn:H0; simpl.
  - intros H. inversion H; subst. exact H0.
  - destruct (to_crs L gdf c) as [g1|e] eqn:H1; simpl; [|discriminate].
    destruct (crs_is L g1 c) eqn:H2; simpl.
    + intros H. inversion H; subst. exact H2.
    + destruct (to_crs L g1 c) as [g2|e] eqn:H3; simpl; [|discriminate].
      destruct (crs_is L g2 c) eqn:H4; simpl; [|discriminate].
      intros H. inversion H; subst. exact H4.
Qed.

(** When both reprojection attempts hand back a table whose CRS still is
    not the target, [check_crs] executes [raise] on a formatted string. *)
Lemma check_crs_unconverted (gdf g1 g2 : DataFrame F G) c :
  crs_is L gdf c = false ->
  to_crs L gdf c = Returns g1 -> crs_is L g1 c = false ->
  to_crs L g1 c = Returns g2 -> crs_is L g2 c = false ->
  check_crs L gdf c =
    (print [PStr ("Detected crs:" ++ crs_str (crs_tag gdf)
                  ++ ", transforming to: " ++ c)] ;;;
     py_raise (OpStr ("ERROR: Could not convert gdf from "
                      ++ crs_str (crs_tag g2) ++ " to " ++ c)))%py.
Proof.
  intros H0 H1 H2 H3 H4. unfold check_crs, crs_isnt.
  rewrite H0, H1. simpl. rewrite H2, H3. simpl. now rewrite H4.
Qed.

(** C5: [check_crs] is idempotent, events and failures included: running
    it on its own result changes nothing; a table that already carries the
    target CRS is returned as it is, with nothing printed. *)
Theorem check_crs_idempotent (gdf : DataFrame F G) (c : string) :
  (g <- check_crs L gdf c ;; check_crs L g c)%py = check_crs L gdf c
  /\ (crs_is L gdf c = true -> check_crs L gdf c = ret gdf).
Proof.
  split; [|apply check_crs_matching].
  destruct (check_crs L gdf c) as [log [g|e]] eqn:H; simpl; auto.
  rewrite (check_crs_matching _ _ (check_crs_returns_tagged _ _ _ _ H)).
  simpl. now rewrite app_nil_r.
Qed.

End Properties.

Lemma check_crs_idempotent_witness :
  crs_is planar sample_grid_stops "EPSG:27700" = true
  /\ check_crs planar sample_grid_stops "EPSG:27700" = ret sample_grid_stops.
Proof.
  split; [reflexivity|].
  apply (proj2 (check_crs_idempotent planar sample_grid_stops "EPSG:27700")).
  reflexivity.
Defined.

(** C1: at a table whose reprojection leaves the CRS as it was, both CRS
    checks execute [raise] on a formatted string.  What reaches the caller
    is Python's [TypeError] for a raise operand that is no exception; the
    formatted text naming the two CRS is lost. *)
Theorem crs_mismatch_raises_a_string :
  check_crs stuck sample_geo_stops "EPSG:27700" =
    (print [PStr "Detected crs:EPSG:4326, transforming to: EPSG:27700"] ;;;
     py_raise (OpStr "ERROR: Could not convert gdf from EPSG:4326 to EPSG:27700"))%py
  /\ snd (check_crs stuck sample_geo_stops "EPSG:27700") =
       Raises (TypeError "exceptions must derive from BaseException")
  /\ apply_point_buffer stuck sample_geo_stops NAPTAN_BUFFER_M GEOMETRY_COL =
       (print [PStr "Applying point buffer of "; PInt 100; PStr " metres"] ;;;
        py_raise (OpStr "Error: GDF could not be converted from EPSG:4326 to EPSG:27700"))%py
  /\ snd (apply_point_buffer stuck sample_geo_stops NAPTAN_BUFFER_M GEOMETRY_COL) =
       Raises (TypeError "exceptions must derive from BaseException").
Proof. repeat split; reflexivity. Qed.

Section BufferProperties.

Context {F G : Type}.
Variable L : Library F G.

Lemma apply_point_buffer_unfold (gdf : DataFrame F G) buffer_m geom_col :
  apply_point_buffer L gdf buffer_m geom_col =
  (print [PStr "Applying point buffer of "; PInt buffer_m; PStr " metres"] ;;;
   gdf1 <- lift (reprojected L gdf) ;;
   if crs_isnt L gdf1 "EPSG:27700"
   then py_raise (OpStr ("Error: GDF could not be converted from "
                         ++ crs_str (crs_tag gdf1) ++ " to EPSG:27700"))
   else
     col <- lift (getitem gdf1 geom_col) ;;
     buffered <- lift (series_buffer L gdf1 geom_col buffer_m col) ;;
     gdf2 <- lift (setitem gdf1 ("buffered_" ++ geom_col) buffered) ;;
     print [PStr "Buffer created on "; PCount (len gdf2);
            PStr (" points from '" ++ geom_col ++ "' as 'buffered_"
                  ++ geom_col ++ "'")] ;;;
     ret gdf2)%py.
Proof.
  unfold apply_point_buffer, reprojected.
  destruct (crs_isnt L gdf "EPSG:27700"); reflexivity.
Qed.


End BufferProperties.


(** ** The loaders *)

Lemma for_return_cons_some {A B} (x : A) (l : list A) (body : A -> M (option B)) :
  (forall log, body x <> (log, Returns None)) ->
  for_return (x :: l) body = body x.
Proof.
  intros Hsome. simpl. destruct (body x) as [log [[b|]|e]] eqn:Hb; simpl.
  - now rewrite app_nil_r.
  - now destruct (Hsome log).
  - reflexivity.
Qed.

Lemma fst_bind {A B} (m : M A) (f : A -> M B) :
  fst (bind m f) =
  fst m ++ match snd m with
           | Returns a => fst (f a)
           | Raises _ => []
           end.
Proof.
  destruct m as [l [a|e]]; simpl.
  - now destruct (f a).
  - now rewrite app_nil_r.
Qed.

Lemma in_bind_log {A B} (m : M A) (f : A -> M B) (ev : Event) :
  In ev (fst (bind m f)) -> In ev (fst m) \/ exists a, In ev (fst (f a)).
Proof.
  rewrite fst_bind. intros H. apply in_app_or in H as [H|H]; auto.
  destruct (snd m); [eauto|contradiction].
Qed.

Lemma filter_skips_prefix {A} (p : A -> bool) (pre : list A) (x : A) (post : list A) :
  forallb (fun a => negb (p a)) pre = true -> p x = true ->
  filter p (pre ++ x :: post) = x :: filter p post.
Proof.
  intros Hpre Hx. induction pre as [|a pre IH]; simpl in *.
  - now rewrite Hx.
  - apply andb_true_iff in Hpre as [Ha Hpre].
    apply negb_true_iff in Ha. rewrite Ha. auto.
Qed.

Lemma filter_none {A} (p : A -> bool) (l : list A) :
  forallb (fun a => negb (p a)) l = true -> filter p l = [].
Proof.
  induction l as [|a l IH]; simpl; auto.
  intros H. apply andb_true_iff in H as [Ha Hl].
  apply negb_true_iff in Ha. rewrite Ha. auto.
Qed.

Section LoaderProperties.

Context {F G : Type}.
Variable L : Library F G.
Variable E : Env F G.

(** [create_geospatial_dataset] prints nothing and touches no file. *)
Lemma create_geospatial_dataset_silent (df : DataFrame F G) x_col y_col crs :
  fst (create_geospatial_dataset L df x_col y_col crs) = [].
Proof.
  unfold create_geospatial_dataset.
  repeat (rewrite fst_bind; cbn [lift fst snd app];
          match goal with
          | |- context [match ?o with Returns _ => _ | Raises _ => _ end] =>
              destruct o; auto
          end).
  match goal with |- context [if ?b then _ else _] => destruct b end; reflexivity.
Qed.

(** C7: with [file] the first name of the listing that contains ".csv",
    [read_naptan_data] is the processing of [file] alone: the result and
    the events do not depend on the names listed after it, the only CSV
    read is [data_dir / file], and a returned value is a table, never
    [None]. *)
Theorem read_naptan_data_first_only
  (data_dir : Path) (x_col y_col crs : string) (export_geo : bool)
  (pre : list string) (file : string) (post : list string) :
  listdir E data_dir = Returns (pre ++ file :: post) ->
  forallb (fun n => negb (contains ".csv" n)) pre = true ->
  contains ".csv" file = true ->
  read_naptan_data L E data_dir x_col y_col crs export_geo =
    (emit (EvListdir data_dir) ;;;
     print [PStr ("Reading NaPTAN: " ++ file)] ;;;
     stop_data <- pd_read_csv E (path_div data_dir file) ;;
     geo_stop_data <- create_geospatial_dataset L stop_data x_col y_col crs ;;
     (if export_geo
      then
        print [PStr ("Exporting Geo NaPTAN data: "
                     ++ ("geo_" ++ replace ".csv" ".gpkg" file))] ;;;
        gdf_to_file E geo_stop_data
          (path_div data_dir ("geo_" ++ replace ".csv" ".gpkg" file))
      else ret tt) ;;;
     ret (Some geo_stop_data))%py
  /\ (forall p,
        In (EvReadCsv p) (fst (read_naptan_data L E data_dir x_col y_col crs export_geo)) ->
        p = path_div data_dir file)
  /\ (forall log r,
        read_naptan_data L E data_dir x_col y_col crs export_geo = (log, Returns r) ->
        exists geo_stop_data, r = Some geo_stop_data).
Proof.
  intros Hls Hpre Hfile.
  assert (Heq : read_naptan_data L E data_dir x_col y_col crs export_geo =
    (emit (EvListdir data_dir) ;;;
     print [PStr ("Reading NaPTAN: " ++ file)] ;;;
     stop_data <- pd_read_csv E (path_div data_dir file) ;;
     geo_stop_data <- create_geospatial_dataset L stop_data x_col y_col crs ;;
     (if export_geo
      then
        print [PStr ("Exporting Geo NaPTAN data: "
                     ++ ("geo_" ++ replace ".csv" ".gpkg" file))] ;;;
        gdf_to_file E geo_stop_data
          (path_div data_dir ("geo_" ++ replace ".csv" ".gpkg" file))
      else ret tt) ;;;
     ret (Some geo_stop_data))%py).
  { unfold read_naptan_data, os_listdir. rewrite Hls.
    unfold emit at 1. unfold lift at 1. cbn [bind app].
    rewrite filter_skips_prefix by assumption.
    rewrite for_return_cons_some.
    - unfold emit at 1. cbn [bind app]. reflexivity.
    - intros log H.
      bind_inv H as [] H1. bind_inv H as df H2. bind_inv H as geo H3.
      bind_inv H as [] H4. discriminate. }
  split; [exact Heq|]. rewrite Heq. split.
  - intros p Hin. unfold pd_read_csv, gdf_to_file in Hin.
    destruct export_geo;
      repeat (cbv beta in Hin;
              match type of Hin with
              | In _ (fst (bind _ _)) => apply in_bind_log in Hin as [Hin | [? Hin]]
              end);
      try rewrite create_geospatial_dataset_silent in Hin;
      unfold emit, print, emit, lift, ret in Hin; cbn [fst In] in Hin;
      repeat (destruct Hin as [Hin|Hin]); try discriminate; try contradiction;
      now inversion Hin.
  - intros log r H.
    bind_inv H as [] H0. bind_inv H as [] H1. bind_inv H as df H2.
    bind_inv H as geo H3. bind_inv H as [] H4.
    inversion H; subst. eauto.
Qed.

(** C4, as the loaders behave: a listing that fails stops either loader at
    once with the listing's own error, before any file is read; a stops
    directory whose listing has no name containing ".csv" makes
    [read_naptan_data] return [None] without raising; an empty crime
    directory makes [read_and_create_geo_data] return an empty mapping and
    an empty table without raising. *)
Theorem loaders_on_missing_or_empty_directory
  (data_dir : Path) (x_col y_col crs : string) (export_geo : bool) :
  (forall e,
      listdir E data_dir = Raises e ->
      read_naptan_data L E data_dir x_col y_col crs export_geo
        = ([EvListdir data_dir], Raises e)
      /\ read_and_create_geo_data L E data_dir x_col y_col crs export_geo
        = ([EvListdir data_dir], Raises e))
  /\ (forall names,
        listdir E data_dir = Returns names ->
        forallb (fun n => negb (contains ".csv" n)) names = true ->
        read_naptan_data L E data_dir x_col y_col crs export_geo
          = ([EvListdir data_dir], Returns None))
  /\ (listdir E data_dir = Returns [] ->
      read_and_create_geo_data L E data_dir x_col y_col crs export_geo
        = ([EvListdir data_dir; EvPbarNew 0], Returns ([], empty_frame))).
Proof.
  repeat split.
  - unfold read_naptan_data, os_listdir. rewrite H. reflexivity.
  - unfold read_and_create_geo_data, os_listdir. rewrite H. reflexivity.
  - intros names Hls Hnone.
    unfold read_naptan_data, os_listdir. rewrite Hls.
    unfold emit at 1. unfold lift at 1. cbn [bind app].
    rewrite filter_none by assumption. reflexivity.
  - intros Hls. unfold read_and_create_geo_data, os_listdir. rewrite Hls.
    reflexivity.
Qed.

End LoaderProperties.

Lemma read_naptan_data_first_only_witness :
  read_naptan_data planar sample_env NAPTAN_DIR "Longitude" "Latitude" "EPSG:4326" false
  = (emit (EvListdir NAPTAN_DIR) ;;;
     print [PStr ("Reading NaPTAN: " ++ "Stops.csv")] ;;;
     stop_data <- pd_read_csv sample_env (path_div NAPTAN_DIR "Stops.csv") ;;
     geo_stop_data <- create_geospatial_dataset planar stop_data
                        "Longitude" "Latitude" "EPSG:4326" ;;
     ret tt ;;;
     ret (Some geo_stop_data))%py.
Proof.
  apply (read_naptan_data_first_only planar sample_env NAPTAN_DIR
           "Longitude" "Latitude" "EPSG:4326" false
           ["readme.txt"] "Stops.csv" ["Old.csv"]);
    reflexivity.
Defined.

Lemma loaders_on_missing_or_empty_directory_witness :
  read_naptan_data planar missing_dir_env NAPTAN_DIR
    "Longitude" "Latitude" "EPSG:4326" false
  = ([EvListdir NAPTAN_DIR], Raises (FileNotFoundError NAPTAN_DIR))
  /\ read_naptan_data planar no_stops_env NAPTAN_DIR
       "Longitude" "Latitude" "EPSG:4326" false
     = ([EvListdir NAPTAN_DIR], Returns None).
Proof.
  split.
  - apply (loaders_on_missing_or_empty_directory planar missing_dir_env NAPTAN_DIR
             "Longitude" "Latitude" "EPSG:4326" false).
    reflexivity.
  - apply (proj1 (proj2 (loaders_on_missing_or_empty_directory planar no_stops_env
             NAPTAN_DIR "Longitude" "Latitude" "EPSG:4326" false)) ["readme.txt"]);
      reflexivity.
Defined.

(** C4 fails where the stops directory exists and holds no CSV file:
    [read_naptan_data] returns [None] and raises nothing, and [main] goes on
    until [len(None)], whose error names no path. *)
Lemma no_csv_returns_none :
  read_naptan_data planar no_stops_env NAPTAN_DIR
    "Longitude" "Latitude" "EPSG:4326" false
  = ([EvListdir NAPTAN_DIR], Returns None)
  /\ snd (main planar no_stops_env)
     = Raises (TypeError "object of type 'NoneType' has no len()").
Proof. split; reflexivity. Qed.

(** ** The spatial join *)

Section JoinProperties.

Context {F G : Type}.
Variable L : Library F G.

Lemma sjoin_within_rows (left_df right_df joined : DataFrame F G) :
  sjoin_within L left_df right_df = Returns joined ->
  exists lg rg,
    geometry left_df = Some lg /\ geometry right_df = Some rg
    /\ rows joined =
       flat_map (fun l => map (sjoin_row left_df right_df rg l)
                            (filter (sjoin_match L lg rg l) (rows right_df)))
                (rows left_df).
Proof.
  unfold sjoin_within.
  destruct (geometry left_df) as [lg|]; [|discriminate].
  destruct (geometry right_df) as [rg|]; [|discriminate].
  destruct (existsb _ _); [discriminate|].
  intros H. inversion H; subst. exists lg, rg. auto.
Qed.

(** Every joined row pairs a left row and a right row that both have a
    geometry, the left one within the right one. *)
Lemma sjoin_within_only_matches (left_df right_df joined : DataFrame F G) j :
  sjoin_within L left_df right_df = Returns joined ->
  In j (rows joined) ->
  exists lg rg l r p q,
    geometry left_df = Some lg /\ geometry right_df = Some rg
    /\ In l (rows left_df) /\ In r (rows right_df)
    /\ get l lg = CGeom p /\ get r rg = CGeom q /\ within L p q = true
    /\ j = sjoin_row left_df right_df rg l r.
Proof.
  intros H Hj. apply sjoin_within_rows in H as (lg & rg & Hlg & Hrg & Hrows).
  rewrite Hrows in Hj. apply in_flat_map in Hj as (l & Hl & Hj).
  apply in_map_iff in Hj as (r & Hjr & Hr).
  apply filter_In in Hr as [Hr Hm]. unfold sjoin_match in Hm.
  destruct (get l lg) as [| | | |p] eqn:Hp; try discriminate.
  destruct (get r rg) as [| | | |q] eqn:Hq; try discriminate.
  exists lg, rg, l, r, p, q. auto 10.
Qed.


End JoinProperties.


(** ** main *)

Lemma keep_notna_rows {F G : Type} (df out : DataFrame F G) c :
  keep_notna df c = Returns out ->
  rows out = filter (fun r => notna (get r c)) (rows df)
  /\ columns out = columns df /\ crs_tag out = crs_tag df.
Proof.
  unfold keep_notna. destruct (has_col df c); [|discriminate].
  intros H. inversion H; subst. auto.
Qed.

Section MainProperties.

Context {F G : Type}.
Variable L : Library F G.
Variable E : Env F G.

(** The stages a run of [main] that returns has gone through. *)
Lemma main_returns_inv log locals :
  main L E = (log, Returns locals) ->
  exists combined stops stops1 cleaned buffered dropped active joined
         l_crime l_stops l_buffer l_check1 l_check2,
    read_and_create_geo_data L E CRIME_DATA_PATH "Longitude" "Latitude" "EPSG:4326" false
      = (l_crime, Returns (crime_data locals, combined))
    /\ read_naptan_data L E NAPTAN_DIR "Longitude" "Latitude" "EPSG:4326" false
      = (l_stops, Returns (Some stops))
    /\ keep_notna stops GEOMETRY_COL = Returns stops1
    /\ keep_notna combined GEOMETRY_COL = Returns cleaned
    /\ apply_point_buffer L stops1 NAPTAN_BUFFER_M GEOMETRY_COL
      = (l_buffer, Returns buffered)
    /\ drop_column buffered GEOMETRY_COL = Returns dropped
    /\ set_active_geometry dropped ("buffered_" ++ GEOMETRY_COL) = Returns active
    /\ check_crs L active "EPSG:27700" = (l_check1, Returns (naptan_data locals))
    /\ check_crs L cleaned "EPSG:27700" = (l_check2, Returns (combined_crime_data locals))
    /\ sjoin_within L (combined_crime_data locals) (naptan_data locals) = Returns joined
    /\ crime_near_naptan_stops locals = with_unit_count joined
    /\ sum_per_group L (with_unit_count joined) = Returns (crimes_per_stop locals)
    /\ select (crimes_per_stop locals) RETAINED_COLS
       = Returns (crimes_per_stop_filtered locals)
    /\ log =
       (l_crime
        ++ [EvPrint [PStr "Crime data created for "; PCount (len combined);
                     PStr " offences."]]
        ++ l_stops
        ++ [EvPrint [PStr "NaPTAN data loaded for "; PCount (len stops);
                     PStr " PT stops."]])
       ++ EvPrint [PStr "Removing combined crime data for crimes > 12 months ago."]
       :: (l_buffer ++ l_check1 ++ l_check2
           ++ [EvPrint [PStr "Commening sjoin: "; PClock];
               EvPrint [PStr "sjoin complete: "; PClock];
               EvPrint [PStr newline;
                        PCount (length (groups (crimes_per_stop_filtered locals)));
                        PStr " stops have crime within "; PInt NAPTAN_BUFFER_M;
                        PStr " metres of NaPTAN stops "; PClock]]).
Proof.
  intros H. unfold main in H.
  bind_inv H as [all_data combined] Hload. cbn [fst snd] in H.
  bind_inv H as [] Hp1.
  bind_inv H as stops0 Hstops.
  bind_inv H as [stops n] Hlen. cbn [fst snd] in H.
  bind_inv H as [] Hp2.
  bind_inv H as stops1 Hk1. lift_inv Hk1.
  bind_inv H as cleaned Hk2. lift_inv Hk2.
  bind_inv H as [] Hp3.
  bind_inv H as buffered Hbuf.
  bind_inv H as dropped Hdrop. lift_inv Hdrop.
  bind_inv H as active Hact. lift_inv Hact.
  bind_inv H as stops2 Hc1.
  bind_inv H as crimes2 Hc2.
  bind_inv H as [] Hp4.
  bind_inv H as joined Hj. lift_inv Hj.
  bind_inv H as [] Hp5.
  bind_inv H as summed Hsum. lift_inv Hsum.
  bind_inv H as filtered Hsel. lift_inv Hsel.
  bind_inv H as [] Hp6.
  inversion H; subst locals; clear H. subst. cbn [crime_data naptan_data
    combined_crime_data crime_near_naptan_stops crimes_per_stop
    crimes_per_stop_filtered].
  destruct stops0 as [stops0|]; [|discriminate].
  inversion Hlen; subst; clear Hlen.
  inversion Hp1; inversion Hp2; inversion Hp3; inversion Hp4; inversion Hp5;
    inversion Hp6; subst.
  exists combined, stops, stops1, cleaned, buffered, dropped, active, joined.
  do 5 eexists.
  repeat (split; [eassumption || reflexivity|]).
  repeat rewrite <- app_assoc. cbn [app]. repeat rewrite app_nil_r.
  repeat rewrite <- app_assoc. reflexivity.
Qed.

(** The order of the steps in [main]: the count printed as "Crime data
    created for ... offences" is the length of the combined table as
    loaded, rows without geometry included; the table that goes on to the
    CRS check and the join is the loaded one without those rows; and every
    joined row pairs an incident that has a geometry with a stop polygon
    containing it. *)
Theorem null_geometry_rows_leave_before_the_join log locals :
  main L E = (log, Returns locals) ->
  exists combined cleaned joined l_crime l_check,
    read_and_create_geo_data L E CRIME_DATA_PATH "Longitude" "Latitude" "EPSG:4326" false
      = (l_crime, Returns (crime_data locals, combined))
    /\ In (EvPrint [PStr "Crime data created for "; PCount (length (rows combined));
                    PStr " offences."]) log
    /\ keep_notna combined GEOMETRY_COL = Returns cleaned
    /\ rows cleaned = filter (fun r => notna (get r GEOMETRY_COL)) (rows combined)
    /\ check_crs L cleaned "EPSG:27700" = (l_check, Returns (combined_crime_data locals))
    /\ sjoin_within L (combined_crime_data locals) (naptan_data locals) = Returns joined
    /\ crime_near_naptan_stops locals = with_unit_count joined
    /\ forall j, In j (rows joined) ->
         exists lg rg l r p q,
           geometry (combined_crime_data locals) = Some lg
           /\ geometry (naptan_data locals) = Some rg
           /\ In l (rows (combined_crime_data locals))
           /\ In r (rows (naptan_data locals))
           /\ get l lg = CGeom p /\ get r rg = CGeom q /\ within L p q = true
           /\ j = sjoin_row (combined_crime_data locals) (naptan_data locals) rg l r.
Proof.
  intros H.
  apply main_returns_inv in H
    as (combined & stops & stops1 & cleaned & buffered & dropped & active & joined
        & l_crime & l_stops & l_buffer & l_check1 & l_check2
        & Hload & _ & _ & Hclean & _ & _ & _ & _ & Hcheck & Hjoin & Hnear & _ & _ & Hlog).
  exists combined, cleaned, joined, l_crime, l_check2.
  repeat (split; [eassumption|]).
  split.
  { rewrite Hlog. apply in_or_app. left. apply in_or_app. right. now left. }
  split; [assumption|].
  split; [apply (keep_notna_rows _ _ _ Hclean)|].
  repeat (split; [assumption|]).
  intros j Hj. eapply sjoin_within_only_matches; eassumption.
Qed.

(** C10: between the print of "Removing combined crime data for crimes >
    12 months ago." and the stages after it nothing happens to the crime
    table: the table that is checked for its CRS and joined is the loaded
    table filtered on its geometry alone, so every loaded incident with a
    geometry is in it, whatever its month. *)
Theorem no_age_filter_after_the_print log locals :
  main L E = (log, Returns locals) ->
  exists combined cleaned joined l_crime l_check before after,
    read_and_create_geo_data L E CRIME_DATA_PATH "Longitude" "Latitude" "EPSG:4326" false
      = (l_crime, Returns (crime_data locals, combined))
    /\ log = before
             ++ EvPrint [PStr "Removing combined crime data for crimes > 12 months ago."]
             :: after
    /\ keep_notna combined GEOMETRY_COL = Returns cleaned
    /\ (forall r, In r (rows combined) -> notna (get r GEOMETRY_COL) = true ->
          In r (rows cleaned))
    /\ check_crs L cleaned "EPSG:27700" = (l_check, Returns (combined_crime_data locals))
    /\ sjoin_within L (combined_crime_data locals) (naptan_data locals) = Returns joined
    /\ crime_near_naptan_stops locals = with_unit_count joined.
Proof.
  intros H.
  apply main_returns_inv in H
    as (combined & stops & stops1 & cleaned & buffered & dropped & active & joined
        & l_crime & l_stops & l_buffer & l_check1 & l_check2
        & Hload & _ & _ & Hclean & _ & _ & _ & _ & Hcheck & Hjoin & Hnear & _ & _ & Hlog).
  exists combined, cleaned, joined, l_crime, l_check2. do 2 eexists.
  split; [eassumption|]. split; [exact Hlog|]. split; [assumption|].
  split.
  { intros r Hr Hg. destruct (keep_notna_rows _ _ _ Hclean) as [Hrows _].
    rewrite Hrows. apply filter_In. auto. }
  auto.
Qed.

End MainProperties.

(** ** Grouping and sums *)





Section KeyProperties.

Context {F G : Type}.
Variable L : Library F G.

Lemma insert_key_perm (k : list (Key F)) l : Permutation (insert_key L k l) (k :: l).
Proof.
  induction l as [|k' l IH]; simpl; auto.
  destruct (keys_leb L k k'); auto.
  transitivity (k' :: k :: l); [now constructor|constructor].
Qed.

Lemma sort_keys_perm (l : list (list (Key F))) : Permutation (sort_keys L l) l.
Proof.
  induction l as [|k l IH]; simpl; auto.
  transitivity (k :: sort_keys L l); [apply insert_key_perm|now constructor].
Qed.

Lemma distinct_keys_incl (l : list (list (Key F))) x :
  In x (distinct_keys L l) -> In x l.
Proof.
  revert x. induction l as [|k l IH]; simpl; auto.
  intros x [H|H]; auto. apply filter_In in H as [H _]. auto.
Qed.

(** Keys made of text only compare equal to themselves and to nothing
    else, whatever the library's float comparison does. *)
Lemma keys_eqb_text_r (ss : list string) (k : list (Key F)) :
  keys_eqb L k (map KStr ss) = true -> k = map KStr ss.
Proof.
  unfold keys_eqb. revert k. induction ss as [|s ss IH]; intros [|a k]; simpl;
    try discriminate; auto.
  destruct a as [z|x|s']; simpl; try discriminate.
  destruct (String.compare s' s) eqn:Hc; try discriminate.
  apply String.compare_eq_iff in Hc. subst. intros H. f_equal. auto.
Qed.


Lemma distinct_keys_keeps_text (l : list (list (Key F))) (ss : list string) :
  In (map KStr ss) l -> In (map KStr ss) (distinct_keys L l).
Proof.
  induction l as [|k l IH]; simpl; auto.
  intros [H|H]; auto.
  destruct (keys_eqb L k (map KStr ss)) eqn:He.
  - left. now apply keys_eqb_text_r in He.
  - right. apply filter_In. split; auto. now rewrite He.
Qed.


End KeyProperties.

Lemma omap_keyed {A K V} (h : A -> Outcome V) (tag : A -> V -> K) (l : list A) (out : list K) :
  omap (fun a => obind (h a) (fun v => Returns (tag a v))) l = Returns out ->
  Forall2 (fun a k => exists v, h a = Returns v /\ k = tag a v) l out.
Proof.
  intros H. apply omap_returns in H.
  induction H as [|a k l out Ha _ IH]; constructor; auto.
  destruct (h a) as [v|e]; simpl in Ha; [|discriminate].
  inversion Ha. eauto.
Qed.


Section AggregationProperties.

Context {F G : Type}.
Variable L : Library F G.

(** *** The sum of one column over one group *)

Lemma object_sum_from_text (a : string) (ss : list string) :
  object_sum_from L (@CStr F G a) (map CStr ss)
  = Returns (CStr (fold_left String.append ss a)).
Proof.
  revert a. induction ss as [|s ss IH]; intros a; simpl; auto.
Qed.

(** Text is summed by concatenation, in row order, missing values left
    out. *)
Lemma object_sum_text (vs : list (Cell F G)) (s : string) (ss : list string) :
  filter (@notna F G) vs = map CStr (s :: ss) ->
  object_sum L vs = Returns (CStr (fold_left String.append ss s)).
Proof.
  intros H. unfold object_sum. rewrite H. apply object_sum_from_text.
Qed.



(** *** groupby(keys).sum() *)

Lemma keyed_rows (keys : list string) (rs : list (Row F G)) keyed :
  omap (fun r => obind (row_key keys r) (fun k => Returns (k, r))) rs = Returns keyed ->
  flat_map (fun kr : option (list (Key F)) * Row F G =>
              match fst kr with
              | Some k => [k]
              | None => []
              end) keyed
  = flat_map (fun r => match row_key keys r with
                       | Returns (Some k) => [k]
                       | _ => []
                       end) rs
  /\ forall k, map snd (filter (in_group L k) keyed) = filter (row_in_group L keys k) rs.
Proof.
  intros H. apply omap_keyed in H.
  induction H as [|r kr rs keyed (ko & Hr & ->) _ [IH1 IH2]]; [split; auto|].
  split.
  - cbn [flat_map fst]. rewrite Hr, IH1. reflexivity.
  - intros k. cbn [filter]. unfold in_group at 1, row_in_group at 1.
    cbn [fst]. rewrite Hr. destruct ko as [k'|].
    + destruct (keys_eqb L k k'); cbn [map snd]; now rewrite IH2.
    + apply IH2.
Qed.

Lemma summed_columns_lookup (h : string -> Outcome (Cell F G)) cols vs :
  omap (fun c => obind (h c) (fun v => Returns (c, v))) cols = Returns vs ->
  forall c, In c cols -> exists v, lookup c vs = Some v /\ h c = Returns v.
Proof.
  intros H. apply omap_keyed in H.
  induction H as [|c0 cv cols vs (v0 & Hc0 & ->) _ IH]; intros c Hin; [destruct Hin|].
  cbn [lookup]. destruct (String.eqb c0 c) eqn:He.
  - apply String.eqb_eq in He. subst. eauto.
  - destruct Hin as [->|Hin]; [now rewrite String.eqb_refl in He|auto].
Qed.

Lemma groups_of_keys {K V} (h : K -> Outcome V) (ks : list K) gs :
  omap (fun k => obind (h k) (fun vs => Returns (k, vs))) ks = Returns gs ->
  map fst gs = ks /\ forall k vs, In (k, vs) gs -> h k = Returns vs.
Proof.
  intros H. apply omap_keyed in H.
  induction H as [|k0 g ks gs (v0 & Hk0 & ->) _ [IH1 IH2]]; [split; [auto|intros ? ? []]|].
  split; [cbn [map fst]; now rewrite IH1|].
  intros k vs [Heq|Hin]; [inversion Heq; subst; auto|auto].
Qed.

(** What a grouped sum that returns holds: the keys are the distinct keys
    of the rows, sorted, and each group has for every value column the
    sum of that column over the rows of the group. *)
Lemma groupby_sum_inv (d : DataFrame F G) (keys : list string) (g : Grouped F G) :
  groupby_sum L d keys = Returns g ->
  index_names g = keys
  /\ value_columns g = value_cols d keys
  /\ map fst (groups g) = sort_keys L (distinct_keys L (live_keys d keys))
  /\ forall k vs, In (k, vs) (groups g) ->
       forall c, In c (value_cols d keys) ->
         exists v,
           lookup c vs = Some v
           /\ group_sum L (dtype_of (column_cells (rows d) c))
                (column_cells (group_rows L d keys k) c) = Returns v.
Proof.
  unfold groupby_sum. destruct (first_missing d keys); [discriminate|].
  destruct (omap (fun r => obind (row_key keys r) (fun k => Returns (k, r))) (rows d))
    as [keyed|e] eqn:Hkeyed; [|discriminate].
  cbn [obind]. cbv zeta. destruct (keyed_rows _ _ _ Hkeyed) as [Hlive Hmembers].
  match goal with
  | |- obind ?o _ = _ -> _ =>
      destruct o as [gs|e] eqn:Hgs; [|cbn [obind]; discriminate]
  end.
  cbn [obind]. intros H. inversion H; subst g; clear H.
  cbn [index_names value_columns groups].
  apply groups_of_keys in Hgs as [Hfst Hvals].
  repeat split; auto.
  - rewrite Hfst, Hlive. reflexivity.
  - intros k vs Hin c Hc. specialize (Hvals k vs Hin). cbv beta in Hvals.
    destruct (summed_columns_lookup _ _ _ Hvals c Hc) as (v & Hl & Hv).
    exists v. split; auto. unfold group_rows. now rewrite <- Hmembers.
Qed.



End AggregationProperties.

(** ** The aggregation of main *)

Lemma lookup_filter_neqb {V} (g c : string) (l : list (string * V)) :
  lookup c (filter (fun kv => neqb g (fst kv)) l)
  = if String.eqb g c then None else lookup c l.
Proof.
  induction l as [|[k v] l IH]; simpl.
  - now destruct (String.eqb g c).
  - unfold neqb at 1. destruct (String.eqb g k) eqn:Hgk; simpl.
    + apply String.eqb_eq in Hgk. subst k. rewrite IH.
      now destruct (String.eqb g c).
    + destruct (String.eqb k c) eqn:Hkc; auto.
      apply String.eqb_eq in Hkc. subst k. now rewrite Hgk.
Qed.

Lemma lookup_map_key {V} (f : string -> V) (cols : list string) (c : string) :
  In c cols -> lookup c (map (fun c' => (c', f c')) cols) = Some (f c).
Proof.
  induction cols as [|c0 cols IH]; simpl; [intros []|].
  intros Hin. destruct (String.eqb c0 c) eqn:He.
  - apply String.eqb_eq in He. now subst.
  - destruct Hin as [->|Hin]; [now rewrite String.eqb_refl in He|auto].
Qed.

Lemma existsb_eqb_in (c : string) (l : list string) :
  existsb (String.eqb c) l = true <-> In c l.
Proof.
  rewrite existsb_exists. split.
  - intros (x & Hx & He). apply String.eqb_eq in He. now subst.
  - intros H. exists c. split; auto. apply String.eqb_refl.
Qed.

Section CountProperties.

Context {F G : Type}.
Variable L : Library F G.

Lemma get_counted_row_other (r : Row F G) (c : string) :
  c <> GEOMETRY_COL -> c <> "crime_count" -> get (counted_row r) c = get r c.
Proof.
  intros Hg Hc. unfold get, counted_row, row_set. cbn [cells].
  rewrite lookup_filter_neqb.
  destruct (String.eqb GEOMETRY_COL c) eqn:He.
  - apply String.eqb_eq in He. congruence.
  - now rewrite lookup_assoc_set_other.
Qed.


Lemma drop_after_count (joined d : DataFrame F G) :
  drop_column (with_unit_count joined) GEOMETRY_COL = Returns d ->
  rows d = map (@counted_row F G) (rows joined)
  /\ columns d = filter (neqb GEOMETRY_COL) (add_col (columns joined) "crime_count").
Proof.
  unfold drop_column. destruct (has_col _ _); [|discriminate].
  intros H. inversion H; subst d; clear H.
  unfold with_unit_count, setitem_scalar. cbn [rows columns].
  split; [|reflexivity]. now rewrite map_map.
Qed.

Lemma select_inv (g out : Grouped F G) (cols : list string) :
  select g cols = Returns out ->
  (forall c, In c cols -> In c (value_columns g))
  /\ groups out =
     map (fun kv => (fst kv,
                     map (fun c => (c, match lookup c (snd kv) with
                                       | Some v => v
                                       | None => CNull
                                       end)) cols))
         (groups g).
Proof.
  unfold select.
  destruct (find _ cols) eqn:Hfind; [discriminate|].
  intros H. inversion H; subst out; clear H. split; [|reflexivity].
  intros c Hc. apply (find_none _ _ Hfind) in Hc.
  apply negb_false_iff in Hc. now apply existsb_eqb_in.
Qed.

Lemma select_lookup (g out : Grouped F G) (cols : list string) k vs c :
  select g cols = Returns out ->
  In (k, vs) (groups out) -> In c cols ->
  exists vs0,
    In (k, vs0) (groups g) /\ In c (value_columns g)
    /\ lookup c vs = Some (match lookup c vs0 with
                           | Some v => v
                           | None => CNull
                           end).
Proof.
  intros Hsel Hin Hc. apply select_inv in Hsel as [Hsub Hgroups].
  rewrite Hgroups in Hin. apply in_map_iff in Hin as ([k0 vs0] & Heq & Hin0).
  cbn [fst snd] in Heq. injection Heq as <- <-.
  exists vs0. repeat split; auto.
  apply (lookup_map_key
           (fun c' => match lookup c' vs0 with Some v' => v' | None => CNull end)
           cols c Hc).
Qed.

(** C2, as the code aggregates: every retained column of every group
    (the count included) holds pandas' [sum] of that column over the rows
    of the group.  For an integer column that is the int64 sum, for a
    float column the float sum, and for a text column the concatenation of
    the group's values in row order, missing values left out: the first
    value only when the group has a single value. *)
Theorem retained_columns_hold_group_sums
  (joined d : DataFrame F G) (summed filtered : Grouped F G) :
  drop_column (with_unit_count joined) GEOMETRY_COL = Returns d ->
  sum_per_group L (with_unit_count joined) = Returns summed ->
  select summed RETAINED_COLS = Returns filtered ->
  forall k vs c,
    In (k, vs) (groups filtered) -> In c RETAINED_COLS ->
    let column := column_cells (rows d) c in
    let members := column_cells (group_rows L d GROUPBY_COLS k) c in
    exists v,
      lookup c vs = Some v
      /\ group_sum L (dtype_of column) members = Returns v
      /\ (dtype_of column = DInt ->
          v = CInt (wrap64 (fold_right Z.add 0%Z (map (@int_of F G) members))))
      /\ (dtype_of column = DFloat ->
          v = CFloat (fsum L (flat_map (floats_of L) members)))
      /\ (forall s ss,
            filter (@notna F G) members = map CStr (s :: ss) ->
            v = CStr (fold_left String.append ss s)).
Proof.
  intros Hdrop Hsum Hsel k vs c Hin Hc column members.
  unfold sum_per_group in Hsum. rewrite Hdrop in Hsum. cbn [obind] in Hsum.
  apply groupby_sum_inv in Hsum as (_ & Hcols & _ & Hvals).
  destruct (select_lookup _ _ _ _ _ _ Hsel Hin Hc) as (vs0 & Hin0 & Hsub & Hlk).
  assert (Hcv : In c (value_cols d GROUPBY_COLS)) by (rewrite <- Hcols; auto).
  destruct (Hvals k vs0 Hin0 c Hcv) as (v & Hl & Hv).
  exists v. fold column members in Hv.
  split; [|split; [exact Hv|]].
  { rewrite Hlk. now rewrite Hl. }
  split; [|split].
  - intros Hdt. rewrite Hdt in Hv. cbn [group_sum] in Hv. now inversion Hv.
  - intros Hdt. rewrite Hdt in Hv. cbn [group_sum] in Hv. now inversion Hv.
  - intros s ss Htext.
    assert (Hobj : existsb (@is_object F G) column = true).
    { apply existsb_exists. exists (CStr s). split; [|reflexivity].
      assert (Hs : In (@CStr F G s) (filter (@notna F G) members))
        by (rewrite Htext; now left).
      apply filter_In in Hs as [Hs _]. unfold members, column_cells in Hs.
      apply in_map_iff in Hs as (r & Hr & Hmem).
      unfold group_rows in Hmem. apply filter_In in Hmem as [Hmem _].
      unfold column, column_cells. apply in_map_iff. eauto. }
    unfold dtype_of in Hv. rewrite Hobj in Hv. cbn [group_sum] in Hv.
    rewrite (object_sum_text L _ _ _ Htext) in Hv. now inversion Hv.
Qed.

End CountProperties.




Section GroupCounts.

Context {F G : Type}.
Variable L : Library F G.


Lemma row_key_counted (r : Row F G) :
  row_key GROUPBY_COLS (counted_row r) = row_key GROUPBY_COLS r.
Proof.
  unfold row_key, GROUPBY_COLS. cbn [omap].
  rewrite !get_counted_row_other; auto; unfold GEOMETRY_COL; discriminate.
Qed.








End GroupCounts.

Section BurglaryAndTheft.

Context {F G : Type}.
Variable L : Library F G.



End BurglaryAndTheft.


Lemma retained_columns_hold_group_sums_witness :
  drop_column (with_unit_count sample_join_result) GEOMETRY_COL = Returns sample_dropped
  /\ sum_per_group planar (with_unit_count sample_join_result)
     = Returns (crimes_per_stop sample_locals)
  /\ select (crimes_per_stop sample_locals) RETAINED_COLS
     = Returns (crimes_per_stop_filtered sample_locals)
  /\ exists vs v,
       In ([KStr "lds1"; KStr "Burglary"], vs)
          (groups (crimes_per_stop_filtered sample_locals))
       /\ lookup "Location" vs = Some v
       /\ v = CStr "On or near AOn or near C".
Proof.
  assert (H1 : drop_column (with_unit_count sample_join_result) GEOMETRY_COL
               = Returns sample_dropped) by (vm_compute; reflexivity).
  assert (H2 : sum_per_group planar (with_unit_count sample_join_result)
               = Returns (crimes_per_stop sample_locals)) by (vm_compute; reflexivity).
  assert (H3 : select (crimes_per_stop sample_locals) RETAINED_COLS
               = Returns (crimes_per_stop_filtered sample_locals))
    by (vm_compute; reflexivity).
  repeat (split; [assumption|]).
  assert (Hin : In ([KStr "lds1"; KStr "Burglary"],
                    snd (hd ([], []) (groups (crimes_per_stop_filtered sample_locals))))
                   (groups (crimes_per_stop_filtered sample_locals)))
    by (vm_compute; left; reflexivity).
  assert (Hc : In "Location" RETAINED_COLS) by (vm_compute; tauto).
  destruct (retained_columns_hold_group_sums planar _ _ _ _ H1 H2 H3 _ _ _ Hin Hc)
    as (v & Hl & _ & _ & _ & Htext).
  eexists. exists v. split; [exact Hin|]. split; [exact Hl|].
  apply (Htext "On or near A" ["On or near C"]). vm_compute. reflexivity.
Defined.

(** C2 fails for text: two joined rows share the group (lds1, Burglary);
    their locations are "On or near A" and "On or near C"; the aggregate
    holds their concatenation, not the first of them. *)
Lemma text_columns_are_concatenated :
  snd (main planar sample_env) = Returns sample_locals
  /\ map (fun r => (get r "NaptanCode", get r "Crime type", get r "Location"))
         (rows (crime_near_naptan_stops sample_locals))
     = [(CStr "lds1", CStr "Burglary", CStr "On or near A");
        (CStr "lds1", CStr "Burglary", CStr "On or near C")]
  /\ exists vs,
       groups (crimes_per_stop_filtered sample_locals)
       = [([KStr "lds1"; KStr "Burglary"], vs)]
       /\ lookup "Location" vs = Some (CStr "On or near AOn or near C")
       /\ lookup "Location" vs <> Some (CStr "On or near A").
Proof.
  split; [vm_compute; reflexivity|]. split; [vm_compute; reflexivity|].
  eexists. split; [vm_compute; reflexivity|].
  split; [vm_compute; reflexivity|]. vm_compute. discriminate.
Qed.

Lemma null_geometry_rows_leave_before_the_join_witness :
  main planar sample_env = (sample_log, Returns sample_locals)
  /\ exists combined cleaned : PFrame,
       In (EvPrint [PStr "Crime data created for "; PCount (length (rows combined));
                    PStr " offences."]) sample_log
       /\ keep_notna combined GEOMETRY_COL = Returns cleaned
       /\ rows cleaned = filter (fun r => notna (get r GEOMETRY_COL)) (rows combined).
Proof.
  assert (H : main planar sample_env = (sample_log, Returns sample_locals))
    by (vm_compute; reflexivity).
  split; [exact H|].
  destruct (null_geometry_rows_leave_before_the_join planar sample_env _ _ H)
    as (combined & cleaned & joined & l1 & l2 & _ & Hin & Hk & Hrows & _).
  exists combined, cleaned.
  split; [exact Hin|]. split; [exact Hk|exact Hrows].
Defined.

(** C3: the sample crimes hold four rows, the last without longitude and
    latitude.  [main] prints the count 4 before it cleans the table, so
    the row is counted; its geometry is the point of missing coordinates,
    not a missing value, so the filter on the geometry keeps it and the row
    goes on to the CRS check and the join, where it matches no polygon. *)
Theorem missing_coordinates_are_counted :
  exists l_crime all_data (combined : PFrame),
    read_and_create_geo_data planar sample_env CRIME_DATA_PATH
      "Longitude" "Latitude" "EPSG:4326" false
    = (l_crime, Returns (all_data, combined))
    /\ map (fun r => (idx r, get r "Longitude", get r "Latitude")) (rows combined)
       = [(0, CInt 10, CInt 0); (1, CInt 200, CInt 0);
          (2, CInt 50, CInt 50); (3, CNull, CNull)]%Z
    /\ In (EvPrint [PStr "Crime data created for "; PCount 4; PStr " offences."])
          (fst (main planar sample_env))
    /\ snd (main planar sample_env) = Returns sample_locals
    /\ map (fun r => (idx r, get r GEOMETRY_COL)) (rows (combined_crime_data sample_locals))
       = [(0, CGeom (PPoint 10 0)); (1, CGeom (PPoint 200 0));
          (2, CGeom (PPoint 50 50)); (3, CGeom PNan)]%Z
    /\ map (fun r : PRow => idx r) (rows (crime_near_naptan_stops sample_locals))
       = [0; 2]%Z.
Proof.
  do 3 eexists. split; [vm_compute; reflexivity|].
  split; [vm_compute; reflexivity|]. split; [vm_compute; tauto|].
  repeat split; vm_compute; reflexivity.
Qed.

Lemma no_age_filter_after_the_print_witness :
  main planar sample_env = (sample_log, Returns sample_locals)
  /\ exists (combined cleaned : PFrame) before after,
       sample_log = before
         ++ EvPrint [PStr "Removing combined crime data for crimes > 12 months ago."]
         :: after
       /\ keep_notna combined GEOMETRY_COL = Returns cleaned
       /\ (forall r, In r (rows combined) -> notna (get r GEOMETRY_COL) = true ->
             In r (rows cleaned)).
Proof.
  assert (H : main planar sample_env = (sample_log, Returns sample_locals))
    by (vm_compute; reflexivity).
  split; [exact H|].
  destruct (no_age_filter_after_the_print planar sample_env _ _ H)
    as (combined & cleaned & joined & l1 & l2 & before & after
        & _ & Hlog & Hk & Hin & _).
  exists combined, cleaned, before, after.
  split; [exact Hlog|]. split; [exact Hk|exact Hin].
Defined.

(** * Further properties of the script *)

Lemma has_col_add_col_other (cols : list string) (c c' : string) :
  c <> c' -> existsb (String.eqb c) (add_col cols c') = existsb (String.eqb c) cols.
Proof.
  intros Hne. unfold add_col. destruct (existsb (String.eqb c') cols); auto.
  rewrite existsb_app. cbn [existsb].
  destruct (String.eqb c c') eqn:He; [apply String.eqb_eq in He; contradiction|].
  now rewrite !orb_false_r.
Qed.

Section ConverterProperties.

Context {F G : Type}.
Variable L : Library F G.

Lemma zip_set_cells (c : string) (rs : list (Row F G)) (vs : list (Cell F G)) :
  length vs = length rs ->
  map (fun r => get r c) (zip_set c rs vs) = vs
  /\ map (@idx F G) (zip_set c rs vs) = map (@idx F G) rs
  /\ forall c', c' <> c ->
       map (fun r => get r c') (zip_set c rs vs) = map (fun r => get r c') rs.
Proof.
  revert vs. induction rs as [|r rs IH]; intros [|v vs] Hlen; cbn [length] in Hlen;
    try discriminate; cbn [zip_set map]; [auto|].
  destruct (IH vs) as (H1 & H2 & H3); [congruence|].
  rewrite get_row_set_same, H1, H2. repeat split; auto.
  intros c' Hc'. now rewrite get_row_set_other, H3.
Qed.

(** When both coordinate columns exist, the library builds one point per
    row and reads the new table's CRS as the requested one, the conversion
    returns the table with the points as its [geometry] column, active and
    tagged with the CRS; every other column and the index are as they
    were. *)
Theorem create_geospatial_dataset_adds_geometry
  (df : DataFrame F G) (x_col y_col crs : string) (pts : list (Cell F G)) :
  has_col df x_col = true -> has_col df y_col = true ->
  points_from_xy L (column_cells (rows df) x_col) (column_cells (rows df) y_col) crs
    = Returns pts ->
  length pts = length (rows df) ->
  crs_eq L crs crs = true ->
  exists out,
    create_geospatial_dataset L df x_col y_col crs = ret out
    /\ geometry out = Some "geometry"
    /\ crs_tag out = Some crs
    /\ getitem out "geometry" = Returns pts
    /\ map (@idx F G) (rows out) = map (@idx F G) (rows df)
    /\ forall c, c <> "geometry" -> getitem out c = getitem df c.
Proof.
  intros Hx Hy Hp Hlen Hcrs.
  destruct (zip_set_cells "geometry" (rows df) pts Hlen) as (Hg & Hi & Ho).
  eexists. split.
  { unfold create_geospatial_dataset, getitem. fold (column_cells (rows df) x_col).
    rewrite Hx, Hy, !bind_lift_returns. fold (column_cells (rows df) y_col).
    rewrite Hp, bind_lift_returns. unfold setitem.
    apply Nat.eqb_eq in Hlen. rewrite Hlen, bind_lift_returns.
    unfold crs_isnt, crs_is. cbn [crs_tag]. rewrite Hcrs. reflexivity. }
  cbn [geometry crs_tag rows columns]. repeat split; auto.
  - unfold getitem, has_col. cbn [columns rows]. now rewrite has_col_add_col, Hg.
  - intros c Hc. unfold getitem, has_col. cbn [columns rows].
    now rewrite (has_col_add_col_other _ _ _ Hc), (Ho c Hc).
Qed.

(** A table [check_crs] returns carries the target CRS, and it is the
    input itself (nothing printed), or the input reprojected once or twice
    (after the one line "Detected crs..."); it is never any other table. *)
Theorem check_crs_postcondition (gdf g : DataFrame F G) (c : string) (log : list Event) :
  check_crs L gdf c = (log, Returns g) ->
  crs_is L g c = true
  /\ ((g = gdf /\ log = [])
      \/ (crs_is L gdf c = false
          /\ log = [EvPrint [PStr ("Detected crs:" ++ crs_str (crs_tag gdf)
                                   ++ ", transforming to: " ++ c)]]
          /\ exists g1,
               to_crs L gdf c = Returns g1
               /\ (g = g1 \/ (crs_is L g1 c = false /\ to_crs L g1 c = Returns g)))).
Proof.
  unfold check_crs, crs_isnt.
  destruct (crs_is L gdf c) eqn:H0; cbn [negb].
  - intros H. inversion H; subst. auto.
  - destruct (to_crs L gdf c) as [g1|e] eqn:H1; cbn [print emit lift bind app];
      [|discriminate].
    destruct (crs_is L g1 c) eqn:H2; cbn [ret].
    + intros H. inversion H; subst. split; auto. right. eauto 10.
    + destruct (to_crs L g1 c) as [g2|e] eqn:H3; [|discriminate].
      destruct (crs_is L g2 c) eqn:H4; cbn [ret py_raise]; [|discriminate].
      intros H. inversion H; subst. split; auto. right. eauto 10.
Qed.

(** Once the CRS is verified, a [geom_col] that is no column of the table
    stops [apply_point_buffer] with a [KeyError] naming it, and a column
    holding anything but geometries or missing values with an
    [AttributeError]; the table is not returned. *)
Theorem apply_point_buffer_bad_column
  (gdf gdf1 : DataFrame F G) (buffer_m : Z) (geom_col : string) :
  reprojected L gdf = Returns gdf1 ->
  crs_is L gdf1 "EPSG:27700" = true ->
  (has_col gdf1 geom_col = false ->
   snd (apply_point_buffer L gdf buffer_m geom_col) = Raises (KeyError geom_col))
  /\ (has_col gdf1 geom_col = true ->
      (exists r, In r (rows gdf1)
                 /\ match get r geom_col with
                    | CGeom _ | CNull => False
                    | _ => True
                    end) ->
      snd (apply_point_buffer L gdf buffer_m geom_col)
      = Raises (AttributeError "'Series' object has no attribute 'buffer'")).
Proof.
  intros Hr Hc. rewrite apply_point_buffer_unfold.
  assert (Hstart : forall k : DataFrame F G -> M (DataFrame F G),
             snd (print [PStr "Applying point buffer of "; PInt buffer_m; PStr " metres"] ;;;
                  gdf1' <- lift (reprojected L gdf) ;; k gdf1')%py = snd (k gdf1)).
  { intros k. rewrite Hr. unfold print, emit. cbn [bind lift app].
    now destruct (k gdf1) as [l r]. }
  rewrite Hstart. unfold crs_isnt. rewrite Hc. cbn [negb]. unfold getitem. split.
  - intros Hcol. now rewrite Hcol.
  - intros Hcol (r & Hin & Hbad). rewrite Hcol, bind_lift_returns.
    unfold series_buffer.
    assert (Hno : is_geoseries gdf1 geom_col (map (fun r0 => get r0 geom_col) (rows gdf1))
                  = false).
    { unfold is_geoseries. apply andb_false_iff. left.
      apply not_true_iff_false. intros Hall.
      rewrite forallb_forall in Hall.
      specialize (Hall (get r geom_col)).
      destruct (get r geom_col) eqn:Hv; try contradiction;
        (assert (Hf : false = true)
           by (apply Hall; rewrite <- Hv; apply in_map_iff; eauto));
        discriminate. }
    rewrite Hno. reflexivity.
Qed.

End ConverterProperties.

(** ** The crime loader *)

Lemma log_bind {A B} (P : Event -> Prop) (m : M A) (f : A -> M B) :
  Forall P (fst m) ->
  (forall a, snd m = Returns a -> Forall P (fst (f a))) ->
  Forall P (fst (bind m f)).
Proof.
  intros Hm Hf. rewrite fst_bind. apply Forall_app. split; auto.
  destruct (snd m) as [a|e]; auto.
Qed.

Lemma log_for_each {A S} (P : Event -> Prop) (l : list A) (body : S -> A -> M S) (st : S) :
  (forall s x, In x l -> Forall P (fst (body s x))) ->
  Forall P (fst (for_each l body st)).
Proof.
  revert st. induction l as [|x l IH]; intros st Hbody; cbn [for_each].
  - constructor.
  - apply log_bind.
    + apply Hbody. now left.
    + intros st' _. apply IH. intros s y Hy. apply Hbody. now right.
Qed.

Lemma for_each_fold {A S T} (g : S -> T) (step : T -> A -> T)
  (l : list A) (body : S -> A -> M S) (st st' : S) (log : list Event) :
  (forall s x l' s', In x l -> body s x = (l', Returns s') -> g s' = step (g s) x) ->
  for_each l body st = (log, Returns st') ->
  g st' = fold_left step l (g st).
Proof.
  revert st log. induction l as [|x l IH]; intros st log Hstep H; cbn [for_each] in H.
  - inversion H. reflexivity.
  - bind_inv H as s1 Hx. cbn [fold_left].
    rewrite <- (Hstep st x _ s1 (or_introl eq_refl) Hx).
    eapply IH; [|exact H]. intros s y l' s' Hy. apply Hstep. now right.
Qed.

Lemma for_each_count {A S} (c : Event -> bool) (n : nat)
  (l : list A) (body : S -> A -> M S) (st st' : S) (log : list Event) :
  (forall s x l' s', In x l -> body s x = (l', Returns s') -> length (filter c l') = n) ->
  for_each l body st = (log, Returns st') ->
  length (filter c log) = n * length l.
Proof.
  revert st log. induction l as [|x l IH]; intros st log Hn H; cbn [for_each] in H.
  - inversion H. cbn. lia.
  - bind_inv H as s1 Hx. subst log. rewrite filter_app, length_app.
    rewrite (Hn st x _ s1 (or_introl eq_refl) Hx).
    rewrite (IH s1 _ (fun s y l' s' Hy => Hn s y l' s' (or_intror Hy)) H).
    cbn [length]. lia.
Qed.

Lemma fold_left_const {A T} (l : list A) (t : T) : fold_left (fun a _ => a) l t = t.
Proof. induction l; cbn; auto. Qed.

Lemma filter_all_false {A} (c : A -> bool) (l : list A) :
  Forall (fun a => c a = false) l -> filter c l = [].
Proof.
  induction 1 as [|a l Ha _ IH]; cbn; auto. now rewrite Ha.
Qed.

Lemma lookup_keys {V} (c : string) (l : list (string * V)) :
  existsb (String.eqb c) (map fst l) = match lookup c l with
                                       | Some _ => true
                                       | None => false
                                       end.
Proof.
  induction l as [|[k v] l IH]; cbn; auto.
  rewrite (String.eqb_sym c k). destruct (String.eqb k c); auto.
Qed.

Lemma map_fst_assoc_set {V} (c : string) (v : V) (l : list (string * V)) :
  map fst (assoc_set c v l) = match lookup c l with
                              | Some _ => map fst l
                              | None => map fst l ++ [c]
                              end.
Proof.
  induction l as [|[k w] l IH]; cbn; auto.
  destruct (String.eqb k c) eqn:He; cbn; auto.
  rewrite IH. now destruct (lookup c l).
Qed.

Section CrimeLoaderProperties.

Context {F G : Type}.
Variable L : Library F G.
Variable E : Env F G.

(** Whatever directory it is given, [read_and_create_geo_data] lists the
    sub-directories and reads the files under [CRIME_DATA_PATH]: every
    event of a call (returning or not) is the listing of [data_dir], the
    listing of [CRIME_DATA_PATH / d] for a listed name [d], the read of a
    file of such a directory whose name contains ".csv", a progress-bar
    call, or, only with [export_geo], the export next to such a file.
    Nothing is printed. *)
Theorem crime_loader_events
  (data_dir : Path) (x_col y_col crs : string) (export_geo : bool) (dirs : list string) :
  listdir E data_dir = Returns dirs ->
  Forall (crime_loader_event data_dir dirs export_geo)
    (fst (read_and_create_geo_data L E data_dir x_col y_col crs export_geo)).
Proof.
  intros Hls. unfold read_and_create_geo_data, os_listdir, pd_read_csv, gdf_to_file.
  rewrite Hls.
  apply log_bind.
  { apply log_bind; [|intros; constructor].
    constructor; [now left|constructor]. }
  intros dirs' Hd. cbn in Hd. inversion Hd; subst dirs'; clear Hd.
  apply log_bind; [constructor; [reflexivity|constructor]|]. intros _ _.
  apply log_for_each. intros st d Hdin.
  apply log_bind.
  { apply log_bind; [|intros; destruct (listdir E _); constructor].
    constructor; [|constructor]. right. eauto. }
  intros names _. apply log_bind.
  - apply log_for_each. intros st' file Hf. apply filter_In in Hf as [_ Hf].
    apply log_bind; [constructor; [cbn; eauto|constructor]|]. intros _ _.
    apply log_bind.
    { apply log_bind; [|intros; destruct (read_csv E _); constructor].
      constructor; [|constructor]. cbn. eauto. }
    intros data _. apply log_bind.
    { rewrite create_geospatial_dataset_silent. constructor. }
    intros data' _. apply log_bind; [|intros; constructor].
    destruct export_geo; [|constructor].
    apply log_bind; [|intros; destruct (to_file E _ _); constructor].
    constructor; [|constructor]. cbn. eauto 10.
  - intros st' _. apply log_bind; [constructor; [reflexivity|constructor]|].
    intros; constructor.
Qed.

(** When the loader returns, the progress bar was created with the number
    of listed directories and advanced once for each of them. *)
Theorem crime_loader_progress
  (data_dir : Path) (x_col y_col crs : string) (export_geo : bool)
  (dirs : list string) (log : list Event) (result : AllData F G * DataFrame F G) :
  listdir E data_dir = Returns dirs ->
  read_and_create_geo_data L E data_dir x_col y_col crs export_geo = (log, Returns result) ->
  In (EvPbarNew (length dirs)) log
  /\ length (filter is_pbar_update log) = length dirs.
Proof.
  intros Hls H. unfold read_and_create_geo_data in H.
  unfold os_listdir at 1 in H. rewrite Hls in H.
  bind_inv H as dirs' Hd. cbn in Hd. inversion Hd; subst dirs'; clear Hd.
  bind_inv H as [] Hn. inversion Hn; clear Hn. subst.
  split; [right; now left|].
  cbn [app filter is_pbar_update].
  rewrite (fun Hs => for_each_count is_pbar_update 1 _ _ _ _ _ Hs H); [lia|].
  clear H. intros st d l' s' _ H.
  bind_inv H as names Hnames. bind_inv H as st1 Hinner. bind_inv H as [] Hu.
  inversion Hu; clear Hu. inversion H; clear H. subst.
  rewrite !filter_app, !length_app.
  match goal with
  | Hn : os_listdir E _ = (?l0, _), Hi : for_each _ _ _ = (?l2, _) |- _ =>
      assert (H0 : filter is_pbar_update l0 = []);
      [|assert (H1 : filter is_pbar_update l2 = []);
        [|rewrite H0, H1; reflexivity]]
  end.
  { unfold os_listdir in Hnames.
    destruct (listdir E (path_div CRIME_DATA_PATH d)); inversion Hnames. reflexivity. }
  apply filter_all_false.
  match type of Hinner with
  | _ = (?l2, ?r) => change l2 with (fst (l2, r))
  end.
  rewrite <- Hinner.
  apply log_for_each. intros st' file _.
  unfold pd_read_csv, gdf_to_file.
  apply log_bind; [constructor; [reflexivity|constructor]|]. intros _ _.
  apply log_bind.
  { apply log_bind; [constructor; [reflexivity|constructor]
                    |intros; destruct (read_csv E _); constructor]. }
  intros data _. apply log_bind.
  { rewrite create_geospatial_dataset_silent. constructor. }
  intros data' _. apply log_bind; [|intros; constructor].
  destruct export_geo; [|constructor].
  apply log_bind; [constructor; [reflexivity|constructor]
                  |intros; destruct (to_file E _ _); constructor].
Qed.

Lemma store_keys (all_data : AllData F G) (year name : string) (data : DataFrame F G) :
  map fst (store all_data year name data) = map fst all_data.
Proof.
  unfold store. destruct (lookup year all_data) eqn:Hlk; auto.
  now rewrite map_fst_assoc_set, Hlk.
Qed.

(** When the loader returns, the mapping has one entry per distinct year
    (the first four characters of a directory name), in the order the
    years are first met in the listing. *)
Theorem crime_loader_year_keys
  (data_dir : Path) (x_col y_col crs : string) (export_geo : bool)
  (dirs : list string) (log : list Event) (result : AllData F G * DataFrame F G) :
  listdir E data_dir = Returns dirs ->
  read_and_create_geo_data L E data_dir x_col y_col crs export_geo = (log, Returns result) ->
  map fst (fst result) = fold_left add_year dirs [].
Proof.
  intros Hls H. unfold read_and_create_geo_data in H.
  unfold os_listdir at 1 in H. rewrite Hls in H.
  bind_inv H as dirs' Hd. cbn in Hd. inversion Hd; subst dirs'; clear Hd.
  bind_inv H as [] Hn. clear Hn.
  apply (for_each_fold (fun st : AllData F G * DataFrame F G => map fst (fst st)) add_year) in H;
    [exact H|].
  clear. intros st d l' s' _ H.
  bind_inv H as names Hnames. bind_inv H as st1 Hinner. bind_inv H as [] Hu.
  inversion H; subst s'; clear H.
  apply (for_each_fold (fun st : AllData F G * DataFrame F G => map fst (fst st))
           (fun a _ => a)) in Hinner.
  - rewrite Hinner, fold_left_const. cbn [fst]. unfold add_year.
    rewrite lookup_keys. destruct (lookup (take_chars 4 d) (fst st)) eqn:Hlk; auto.
    now rewrite map_fst_assoc_set, Hlk.
  - clear. intros st file l' s' _ H.
    bind_inv H as [] H1. bind_inv H as data H2. bind_inv H as data' H3.
    bind_inv H as [] H4. unfold ret in H. injection H as _ <-. cbn [fst].
    exact (store_keys _ _ _ _).
Qed.

End CrimeLoaderProperties.

(** ** The stages of main *)

Lemma has_col_after_drop (cols : list string) (c : string) :
  existsb (String.eqb c) (filter (neqb c) cols) = false.
Proof.
  induction cols as [|k cols IH]; cbn; auto.
  unfold neqb at 1. destruct (String.eqb c k) eqn:He; cbn; auto.
  now rewrite He.
Qed.

Lemma has_col_kept_by_drop (cols : list string) (c c' : string) :
  c <> c' ->
  existsb (String.eqb c) (filter (neqb c') cols) = existsb (String.eqb c) cols.
Proof.
  intros Hne. induction cols as [|k cols IH]; cbn; auto.
  unfold neqb at 1. destruct (String.eqb c' k) eqn:He; cbn; rewrite IH; auto.
  apply String.eqb_eq in He. subst k.
  destruct (String.eqb c c') eqn:Hc; auto.
  apply String.eqb_eq in Hc. contradiction.
Qed.

Section StageProperties.

Context {F G : Type}.
Variable L : Library F G.
Variable E : Env F G.

Lemma apply_point_buffer_returns_tagged
  (gdf out : DataFrame F G) (buffer_m : Z) (geom_col : string) (log : list Event) :
  apply_point_buffer L gdf buffer_m geom_col = (log, Returns out) ->
  crs_is L out "EPSG:27700" = true
  /\ has_col out ("buffered_" ++ geom_col) = true.
Proof.
  rewrite apply_point_buffer_unfold. intros H.
  remember ("buffered_" ++ geom_col)%string as bc eqn:Hbc.
  bind_inv H as [] Hp. clear Hp. bind_inv H as gdf1 Hr. lift_inv Hr.
  unfold crs_isnt in H.
  destruct (crs_is L gdf1 "EPSG:27700") eqn:Hc; cbn [negb] in H; [|discriminate].
  bind_inv H as col Hg. bind_inv H as bs Hb. bind_inv H as gdf2 Hs. lift_inv Hs.
  bind_inv H as [] Hp. inversion H; subst out; clear H.
  unfold setitem in Hs. destruct (Nat.eqb _ _); [|discriminate].
  inversion Hs; subst gdf2. split.
  - exact Hc.
  - unfold has_col. cbn [columns]. apply has_col_add_col.
Qed.

(** On a run of [main] that returns, both tables enter the join carrying
    EPSG:27700.  The stops table needs no reprojection at its CRS check:
    it is the buffered table as [apply_point_buffer] returned it, without
    the point column [geometry] and with [buffered_geometry] as its
    geometry. *)
Theorem tables_enter_the_join_verified (log : list Event) (locals : Locals F G) :
  main L E = (log, Returns locals) ->
  crs_is L (combined_crime_data locals) "EPSG:27700" = true
  /\ crs_is L (naptan_data locals) "EPSG:27700" = true
  /\ geometry (naptan_data locals) = Some "buffered_geometry"
  /\ has_col (naptan_data locals) GEOMETRY_COL = false
  /\ has_col (naptan_data locals) "buffered_geometry" = true
  /\ exists stops1 buffered dropped l_buffer,
       apply_point_buffer L stops1 NAPTAN_BUFFER_M GEOMETRY_COL = (l_buffer, Returns buffered)
       /\ drop_column buffered GEOMETRY_COL = Returns dropped
       /\ naptan_data locals
          = mkDF (columns dropped) (rows dropped) (Some "buffered_geometry")
                 (crs_tag buffered).
Proof.
  intros H.
  apply main_returns_inv in H
    as (combined & stops & stops1 & cleaned & buffered & dropped & active & joined
        & l_crime & l_stops & l_buffer & l_check1 & l_check2
        & _ & _ & _ & _ & Hbuf & Hdrop & Hact & Hc1 & Hc2 & _).
  destruct (apply_point_buffer_returns_tagged _ _ _ _ _ Hbuf) as [Htag Hcol].
  unfold drop_column in Hdrop.
  destruct (has_col buffered GEOMETRY_COL) eqn:Hg; [|discriminate].
  inversion Hdrop; subst dropped; clear Hdrop.
  unfold set_active_geometry in Hact. cbn [columns rows crs_tag] in Hact.
  match type of Hact with
  | (if ?b then _ else _) = _ => destruct b eqn:Hb; [|discriminate]
  end.
  inversion Hact; subst active; clear Hact.
  rewrite check_crs_matching in Hc1 by exact Htag.
  inversion Hc1; subst. clear Hc1.
  split; [exact (check_crs_returns_tagged _ _ _ _ _ Hc2)|].
  split; [exact Htag|]. split; [reflexivity|].
  split; [apply has_col_after_drop|]. split; [exact Hb|].
  exists stops1, buffered. eexists. exists l_buffer.
  split; [exact Hbuf|]. split; [unfold drop_column; rewrite Hg|]; reflexivity.
Qed.

(** The number in the last line of [main], printed as "stops have crime
    within ...", is the number of distinct (NaptanCode, Crime type) keys
    among the joined rows, not the number of stops. *)
Theorem final_count_is_the_number_of_groups (log : list Event) (locals : Locals F G) :
  main L E = (log, Returns locals) ->
  exists d before,
    drop_column (crime_near_naptan_stops locals) GEOMETRY_COL = Returns d
    /\ log = before
             ++ [EvPrint [PStr newline;
                          PCount (length (distinct_keys L (live_keys d GROUPBY_COLS)));
                          PStr " stops have crime within "; PInt NAPTAN_BUFFER_M;
                          PStr " metres of NaPTAN stops "; PClock]].
Proof.
  intros H.
  apply main_returns_inv in H
    as (combined & stops & stops1 & cleaned & buffered & dropped & active & joined
        & l_crime & l_stops & l_buffer & l_check1 & l_check2
        & _ & _ & _ & _ & _ & _ & _ & _ & _ & _ & Hnear & Hsum & Hsel & Hlog).
  unfold sum_per_group in Hsum.
  destruct (drop_column (with_unit_count joined) GEOMETRY_COL) as [d|e] eqn:Hdrop;
    [|discriminate].
  cbn [obind] in Hsum.
  apply groupby_sum_inv in Hsum as (_ & _ & Hkeys & _).
  apply select_inv in Hsel as [_ Hgroups].
  assert (Hlen : length (groups (crimes_per_stop_filtered locals))
                 = length (distinct_keys L (live_keys d GROUPBY_COLS))).
  { rewrite Hgroups, length_map, <- (length_map fst), Hkeys.
    apply Permutation_length, sort_keys_perm. }
  exists d.
  exists ((l_crime
           ++ [EvPrint [PStr "Crime data created for "; PCount (len combined);
                        PStr " offences."]]
           ++ l_stops
           ++ [EvPrint [PStr "NaPTAN data loaded for "; PCount (len stops);
                        PStr " PT stops."]])
          ++ EvPrint [PStr "Removing combined crime data for crimes > 12 months ago."]
          :: (l_buffer ++ l_check1 ++ l_check2
              ++ [EvPrint [PStr "Commening sjoin: "; PClock];
                  EvPrint [PStr "sjoin complete: "; PClock]])).
  split; [now rewrite Hnear|].
  rewrite Hlog, Hlen.
  repeat rewrite <- app_assoc. cbn [app]. repeat rewrite <- app_assoc. reflexivity.
Qed.

(** With an empty crime directory [main] prints "Crime data created for 0
    offences", loads the stops, and then fails on the crime table's
    missing [geometry] column with a [KeyError] that names no path. *)
Theorem main_on_empty_crime_directory (stops : DataFrame F G) (l_stops : list Event) :
  listdir E CRIME_DATA_PATH = Returns [] ->
  read_naptan_data L E NAPTAN_DIR "Longitude" "Latitude" "EPSG:4326" false
    = (l_stops, Returns (Some stops)) ->
  has_col stops GEOMETRY_COL = true ->
  exists log,
    main L E = (log, Raises (KeyError GEOMETRY_COL))
    /\ In (EvPrint [PStr "Crime data created for "; PCount 0; PStr " offences."]) log.
Proof.
  intros Hls Hstops Hcol.
  assert (Hload : read_and_create_geo_data L E CRIME_DATA_PATH
                    "Longitude" "Latitude" "EPSG:4326" false
                  = ([EvListdir CRIME_DATA_PATH; EvPbarNew 0],
                     Returns ([], empty_frame))).
  { unfold read_and_create_geo_data, os_listdir. rewrite Hls. reflexivity. }
  eexists. split.
  - unfold main.
    eapply bind_intro; [exact Hload|]. cbn [fst snd].
    eapply bind_intro; [reflexivity|].
    eapply bind_intro; [exact Hstops|].
    eapply bind_intro; [reflexivity|]. cbn [fst snd].
    eapply bind_intro; [reflexivity|].
    unfold keep_notna at 1. rewrite Hcol.
    eapply bind_intro; [reflexivity|].
    reflexivity.
  - right. right. now left.
Qed.

End StageProperties.

(** ** The groups of the aggregation *)

Section GroupKeys.

Context {F G : Type}.
Variable L : Library F G.

Lemma row_key_pair (r : Row F G) (k : list (Key F)) :
  row_key GROUPBY_COLS r = Returns (Some k) ->
  exists a b,
    key_of (get r "NaptanCode") = Returns (Some a)
    /\ key_of (get r "Crime type") = Returns (Some b)
    /\ k = [a; b].
Proof.
  unfold row_key, GROUPBY_COLS. cbn [omap].
  destruct (key_of (get r "NaptanCode")) as [[a|]|e]; cbn [obind];
    destruct (key_of (get r "Crime type")) as [[b|]|e']; cbn [obind all_some];
    try discriminate.
  intros H. inversion H. eauto.
Qed.

(** Every group of the aggregate stems from a joined row that has both a
    NaptanCode and a Crime type, so joined rows of a stop without code (or
    without crime type) are in no group; and every pair of a code and a
    crime type that occurs as text in a joined row has its group. *)
Theorem groups_stem_from_keyed_rows (joined : DataFrame F G) (summed : Grouped F G) :
  sum_per_group L (with_unit_count joined) = Returns summed ->
  (forall k vs, In (k, vs) (groups summed) ->
     exists r a b,
       In r (rows joined)
       /\ key_of (get r "NaptanCode") = Returns (Some a)
       /\ key_of (get r "Crime type") = Returns (Some b)
       /\ k = [a; b])
  /\ (forall r stop kind,
        In r (rows joined) ->
        get r "NaptanCode" = CStr stop -> get r "Crime type" = CStr kind ->
        In [KStr stop; KStr kind] (map fst (groups summed))).
Proof.
  unfold sum_per_group. intros Hsum.
  destruct (drop_column (with_unit_count joined) GEOMETRY_COL) as [d|e] eqn:Hdrop;
    [|discriminate].
  cbn [obind] in Hsum.
  destruct (drop_after_count _ _ Hdrop) as [Hrows _].
  apply groupby_sum_inv in Hsum as (_ & _ & Hkeys & _).
  split.
  - intros k vs Hin.
    assert (Hk : In k (map fst (groups summed))) by (apply in_map_iff; exists (k, vs); auto).
    rewrite Hkeys in Hk.
    apply (Permutation_in _ (sort_keys_perm L _)) in Hk.
    apply distinct_keys_incl in Hk.
    unfold live_keys in Hk. rewrite Hrows in Hk.
    apply in_flat_map in Hk as (r' & Hr' & Hk).
    apply in_map_iff in Hr' as (r & <- & Hr).
    rewrite row_key_counted in Hk.
    destruct (row_key GROUPBY_COLS r) as [[k'|]|e] eqn:Hrk; try contradiction.
    destruct Hk as [->|[]].
    destruct (row_key_pair r k Hrk) as (a & b & Ha & Hb & ->).
    exists r, a, b. auto.
  - intros r stop kind Hr Hn Hc. rewrite Hkeys.
    apply (Permutation_in _ (Permutation_sym (sort_keys_perm L _))).
    apply (distinct_keys_keeps_text L _ [stop; kind]).
    unfold live_keys. rewrite Hrows. apply in_flat_map.
    exists (counted_row r). split; [apply in_map_iff; eauto|].
    rewrite row_key_counted. unfold row_key, GROUPBY_COLS. cbn [omap].
    rewrite Hn, Hc. now left.
Qed.

End GroupKeys.

(** ** What main touches *)

Lemma log_for_return {A B} (P : Event -> Prop) (l : list A) (body : A -> M (option B)) :
  (forall x, In x l -> Forall P (fst (body x))) ->
  Forall P (fst (for_return l body)).
Proof.
  induction l as [|x l IH]; intros Hbody; cbn [for_return].
  - constructor.
  - apply log_bind; [apply Hbody; now left|].
    intros [b|] _; [constructor|]. apply IH. intros y Hy. apply Hbody. now right.
Qed.

Section FootprintProperties.

Context {F G : Type}.
Variable L : Library F G.
Variable E : Env F G.

Lemma crime_loader_footprint (x_col y_col crs : string) :
  Forall main_event
    (fst (read_and_create_geo_data L E CRIME_DATA_PATH x_col y_col crs false)).
Proof.
  unfold read_and_create_geo_data, os_listdir, pd_read_csv.
  apply log_bind.
  { apply log_bind; [|intros; destruct (listdir E _); constructor].
    constructor; [now left|constructor]. }
  intros dirs _.
  apply log_bind; [constructor; [exact I|constructor]|]. intros _ _.
  apply log_for_each. intros st d _.
  apply log_bind.
  { apply log_bind; [|intros; destruct (listdir E _); constructor].
    constructor; [|constructor]. cbn. eauto. }
  intros names _. apply log_bind.
  - apply log_for_each. intros st' file Hf. apply filter_In in Hf as [_ Hf].
    apply log_bind; [constructor; [exact I|constructor]|]. intros _ _.
    apply log_bind.
    { apply log_bind; [|intros; destruct (read_csv E _); constructor].
      constructor; [|constructor]. cbn. eauto. }
    intros data _. apply log_bind.
    { rewrite create_geospatial_dataset_silent. constructor. }
    intros data' _. apply log_bind; constructor.
  - intros st' _. apply log_bind; [constructor; [exact I|constructor]|].
    intros; constructor.
Qed.

Lemma stops_loader_footprint (x_col y_col crs : string) :
  Forall main_event (fst (read_naptan_data L E NAPTAN_DIR x_col y_col crs false)).
Proof.
  unfold read_naptan_data, os_listdir, pd_read_csv.
  apply log_bind.
  { apply log_bind; [|intros; destruct (listdir E _); constructor].
    constructor; [|constructor]. right. now left. }
  intros names _. apply log_for_return. intros file Hf.
  apply filter_In in Hf as [_ Hf].
  apply log_bind; [constructor; [exact I|constructor]|]. intros _ _.
  apply log_bind.
  { apply log_bind; [|intros; destruct (read_csv E _); constructor].
    constructor; [|constructor]. cbn. eauto. }
  intros data _. apply log_bind.
  { rewrite create_geospatial_dataset_silent. constructor. }
  intros geo _. apply log_bind; constructor.
Qed.

Lemma apply_point_buffer_footprint (gdf : DataFrame F G) (buffer_m : Z) (geom_col : string) :
  Forall main_event (fst (apply_point_buffer L gdf buffer_m geom_col)).
Proof.
  rewrite apply_point_buffer_unfold.
  apply log_bind; [constructor; [exact I|constructor]|]. intros _ _.
  apply log_bind; [destruct (reprojected L gdf); constructor|]. intros gdf1 _.
  destruct (crs_isnt L gdf1 "EPSG:27700"); [constructor|].
  apply log_bind; [destruct (getitem gdf1 geom_col); constructor|]. intros col _.
  apply log_bind; [destruct (series_buffer _ _ _ _ col); constructor|]. intros bs _.
  apply log_bind; [destruct (setitem gdf1 _ bs); constructor|]. intros gdf2 _.
  apply log_bind; [constructor; [exact I|constructor]|]. intros; constructor.
Qed.

Lemma check_crs_footprint (gdf : DataFrame F G) (crs : string) :
  Forall main_event (fst (check_crs L gdf crs)).
Proof.
  unfold check_crs, crs_isnt.
  destruct (crs_is L gdf crs); [constructor|]. cbn [negb].
  apply log_bind.
  { apply log_bind; [constructor; [exact I|constructor]|].
    intros; destruct (to_crs L gdf crs); constructor. }
  intros gdf1 _. destruct (crs_is L gdf1 crs); [constructor|].
  apply log_bind; [destruct (to_crs L gdf1 crs); constructor|]. intros gdf2 _.
  destruct (crs_is L gdf2 crs); constructor.
Qed.

(** Whether it returns or fails, a run of [main] writes no file; it lists
    only the two data directories and the sub-directories of the crime
    directory, and reads only files found there whose name contains
    ".csv". *)
Theorem main_footprint : Forall main_event (fst (main L E)).
Proof.
  unfold main.
  apply log_bind; [apply crime_loader_footprint|]. intros loaded _. cbv beta zeta.
  apply log_bind; [constructor; [exact I|constructor]|]. intros _ _.
  apply log_bind; [apply stops_loader_footprint|]. intros stops0 _.
  apply log_bind; [destruct stops0; constructor|]. intros sized _. cbv beta zeta.
  apply log_bind; [constructor; [exact I|constructor]|]. intros _ _.
  apply log_bind; [destruct (keep_notna _ _); constructor|]. intros stops1 _.
  apply log_bind; [destruct (keep_notna _ _); constructor|]. intros cleaned _.
  apply log_bind; [constructor; [exact I|constructor]|]. intros _ _.
  apply log_bind; [apply apply_point_buffer_footprint|]. intros buffered _.
  apply log_bind; [destruct (drop_column _ _); constructor|]. intros dropped _.
  apply log_bind; [destruct (set_active_geometry _ _); constructor|]. intros active _.
  apply log_bind; [apply check_crs_footprint|]. intros stops2 _.
  apply log_bind; [apply check_crs_footprint|]. intros crimes2 _.
  apply log_bind; [constructor; [exact I|constructor]|]. intros _ _.
  apply log_bind; [destruct (sjoin_within _ _ _); constructor|]. intros joined _.
  cbv beta zeta.
  apply log_bind; [constructor; [exact I|constructor]|]. intros _ _.
  apply log_bind; [destruct (sum_per_group _ _); constructor|]. intros summed _.
  apply log_bind; [destruct (select _ _); constructor|]. intros filtered _.
  apply log_bind; [constructor; [exact I|constructor]|]. intros; constructor.
Qed.

End FootprintProperties.

(** ** The further properties on the sample inputs *)

Lemma create_geospatial_dataset_adds_geometry_witness :
  exists out,
    create_geospatial_dataset planar sample_stops "Longitude" "Latitude" "EPSG:4326"
      = ret out
    /\ getitem out "geometry" = Returns [CGeom (PPoint 0 0)]
    /\ getitem out "ATCOCode" = getitem sample_stops "ATCOCode".
Proof.
  destruct (create_geospatial_dataset_adds_geometry planar sample_stops
              "Longitude" "Latitude" "EPSG:4326" [CGeom (PPoint 0 0)]
              eq_refl eq_refl eq_refl eq_refl eq_refl)
    as (out & Hrun & _ & _ & Hgeo & _ & Hother).
  exists out. split; [exact Hrun|]. split; [exact Hgeo|].
  apply Hother. discriminate.
Defined.

Lemma check_crs_postcondition_witness :
  check_crs planar sample_geo_stops "EPSG:27700"
    = ([EvPrint [PStr "Detected crs:EPSG:4326, transforming to: EPSG:27700"]],
       Returns sample_grid_stops)
  /\ crs_is planar sample_grid_stops "EPSG:27700" = true.
Proof.
  assert (H : check_crs planar sample_geo_stops "EPSG:27700"
              = ([EvPrint [PStr "Detected crs:EPSG:4326, transforming to: EPSG:27700"]],
                 Returns sample_grid_stops)) by reflexivity.
  split; [exact H|].
  exact (proj1 (check_crs_postcondition planar _ _ _ _ H)).
Defined.

Lemma apply_point_buffer_bad_column_witness :
  snd (apply_point_buffer planar sample_grid_stops NAPTAN_BUFFER_M "nope")
    = Raises (KeyError "nope")
  /\ snd (apply_point_buffer planar sample_grid_stops NAPTAN_BUFFER_M "NaptanCode")
     = Raises (AttributeError "'Series' object has no attribute 'buffer'").
Proof.
  split.
  - apply (proj1 (apply_point_buffer_bad_column planar sample_grid_stops sample_grid_stops
                    NAPTAN_BUFFER_M "nope" eq_refl eq_refl)).
    reflexivity.
  - apply (proj2 (apply_point_buffer_bad_column planar sample_grid_stops sample_grid_stops
                    NAPTAN_BUFFER_M "NaptanCode" eq_refl eq_refl));
      [reflexivity|].
    eexists. split; [left; reflexivity|exact I].
Defined.

Lemma crime_loader_events_witness :
  listdir sample_env CRIME_DATA_PATH = Returns ["2023-01"]
  /\ Forall (crime_loader_event CRIME_DATA_PATH ["2023-01"] false)
       (fst (read_and_create_geo_data planar sample_env CRIME_DATA_PATH
               "Longitude" "Latitude" "EPSG:4326" false)).
Proof.
  split; [reflexivity|].
  apply (crime_loader_events planar sample_env CRIME_DATA_PATH
           "Longitude" "Latitude" "EPSG:4326" false ["2023-01"]).
  reflexivity.
Defined.

Lemma crime_loader_progress_witness :
  exists log result,
    read_and_create_geo_data planar sample_env CRIME_DATA_PATH
      "Longitude" "Latitude" "EPSG:4326" false = (log, Returns result)
    /\ length (filter is_pbar_update log) = 1.
Proof.
  do 2 eexists. split; [vm_compute; reflexivity|].
  eapply (crime_loader_progress planar sample_env CRIME_DATA_PATH
            "Longitude" "Latitude" "EPSG:4326" false ["2023-01"]);
    [reflexivity|vm_compute; reflexivity].
Defined.

Lemma crime_loader_year_keys_witness :
  exists log result,
    read_and_create_geo_data planar sample_env CRIME_DATA_PATH
      "Longitude" "Latitude" "EPSG:4326" false = (log, Returns result)
    /\ map fst (fst result) = ["2023"].
Proof.
  do 2 eexists. split; [vm_compute; reflexivity|].
  eapply (crime_loader_year_keys planar sample_env CRIME_DATA_PATH
            "Longitude" "Latitude" "EPSG:4326" false ["2023-01"]);
    [reflexivity|vm_compute; reflexivity].
Defined.

Lemma tables_enter_the_join_verified_witness :
  main planar sample_env = (sample_log, Returns sample_locals)
  /\ crs_is planar (combined_crime_data sample_locals) "EPSG:27700" = true
  /\ crs_is planar (naptan_data sample_locals) "EPSG:27700" = true
  /\ has_col (naptan_data sample_locals) GEOMETRY_COL = false.
Proof.
  assert (H : main planar sample_env = (sample_log, Returns sample_locals))
    by (vm_compute; reflexivity).
  split; [exact H|].
  destruct (tables_enter_the_join_verified planar sample_env _ _ H)
    as (H1 & H2 & _ & H3 & _).
  split; [exact H1|]. split; [exact H2|exact H3].
Defined.

Lemma final_count_is_the_number_of_groups_witness :
  main planar sample_env = (sample_log, Returns sample_locals)
  /\ exists d before,
       drop_column (crime_near_naptan_stops sample_locals) GEOMETRY_COL = Returns d
       /\ sample_log
          = before
            ++ [EvPrint [PStr newline;
                         PCount (length (distinct_keys planar (live_keys d GROUPBY_COLS)));
                         PStr " stops have crime within "; PInt NAPTAN_BUFFER_M;
                         PStr " metres of NaPTAN stops "; PClock]].
Proof.
  assert (H : main planar sample_env = (sample_log, Returns sample_locals))
    by (vm_compute; reflexivity).
  split; [exact H|].
  exact (final_count_is_the_number_of_groups planar sample_env _ _ H).
Defined.

Lemma main_on_empty_crime_directory_witness :
  listdir no_crimes_env CRIME_DATA_PATH = Returns []
  /\ exists log,
       main planar no_crimes_env = (log, Raises (KeyError GEOMETRY_COL))
       /\ In (EvPrint [PStr "Crime data created for "; PCount 0; PStr " offences."]) log.
Proof.
  split; [reflexivity|].
  eapply (main_on_empty_crime_directory planar no_crimes_env);
    [reflexivity|vm_compute; reflexivity|vm_compute; reflexivity].
Defined.

Lemma groups_stem_from_keyed_rows_witness :
  exists summed,
    sum_per_group planar (with_unit_count sample_joined) = Returns summed
    /\ In [KStr "lds2"; KStr "Theft"] (map fst (groups summed)).
Proof.
  eexists. split; [vm_compute; reflexivity|].
  eapply (proj2 (groups_stem_from_keyed_rows planar sample_joined _ _)
            (joined_row 1 "Theft" "B" (PPoint 20 0) 1 "lds2") "lds2" "Theft");
    [right; right; left; reflexivity|reflexivity|reflexivity].
  Unshelve. vm_compute. reflexivity.
Defined.


